(** * A chat server over TCP: shallow embedding of [cmd/server/server.go]

    The server keeps a registry of live connections ([clients], [addr]), a
    task ledger ([tasks], [taskIDCounter]) and an append-only history file.
    Every handler of the Go source is embedded as a function on an explicit
    [State]; what the Go runtime and the operating system decide (map
    iteration order, the clock, I/O failures) is an input of the model. *)

From Stdlib Require Import ZArith NArith Lia Ascii String List Sorted.
From stdpp Require Import base tactics option list sorting gmap strings pretty.

Open Scope Z_scope.

#[local] Arguments String.append !_ _ / : simpl nomatch.

(** ** Go values *)

(** A Go [string] is a sequence of bytes: Rocq's [string] of 8-bit [ascii]. *)
Definition LF : string := String "010"%char EmptyString.

(** [len(s)] as a Go [int]. *)
Definition len (s : string) : Z := Z.of_nat (String.length s).

(** An [error] value is represented by its message. *)
Abbreviation error := string (only parsing).

(** [net.Conn]: the identity of a connection handle. *)
Abbreviation Conn := nat (only parsing).

(** Go's [int] on the 64-bit targets: [x + 1] wraps around in two's
    complement. *)
Definition intSize : Z := 64.
Definition MaxInt : Z := 2 ^ (intSize - 1) - 1.
Definition wrapInt (x : Z) : Z :=
  (x + 2 ^ (intSize - 1)) mod 2 ^ intSize - 2 ^ (intSize - 1).

(** ** Package [strings] *)

Module Strings.

(** [strings.HasPrefix(s, prefix)]. *)
Definition HasPrefix (s prefix : string) : bool := String.prefix prefix s.

(** [s[n:]] for [n <= len(s)]. *)
Fixpoint sliceFrom (n : nat) (s : string) : string :=
  match n, s with
  | O, _ => s
  | S n', String _ s' => sliceFrom n' s'
  | S _, EmptyString => EmptyString
  end.

(** [strings.Cut(s, sep)]: the text before and after the first instance of
    [sep], or [None] when [sep] does not occur in [s]. *)
Fixpoint Cut (s sep : string) : option (string * string) :=
  if String.prefix sep s then Some (EmptyString, sliceFrom (String.length sep) s)
  else match s with
       | EmptyString => None
       | String c s' =>
           match Cut s' sep with
           | Some (before, after) => Some (String c before, after)
           | None => None
           end
       end.

(** The loop of [genSplit]: at most [n] more cuts, the rest unsplit. *)
Fixpoint splitLoop (n : nat) (s sep : string) : list string :=
  match n with
  | O => [s]
  | S n' =>
      match Cut s sep with
      | None => [s]
      | Some (before, after) => before :: splitLoop n' after sep
      end
  end.

(** [strings.SplitN(s, sep, n)] for a non-empty [sep] and [n >= 0], the way
    the server calls it: [n = 0] gives no substring, otherwise at most [n]
    substrings, the last one being the unsplit remainder. *)
Definition SplitN (s sep : string) (n : nat) : list string :=
  match n with
  | O => []
  | S n' => splitLoop n' s sep
  end.

(** [strings.Join(elems, sep)]. *)
Fixpoint Join (elems : list string) (sep : string) : string :=
  match elems with
  | [] => EmptyString
  | [x] => x
  | x :: rest => x +:+ sep +:+ Join rest sep
  end.

(** [strings.Count(s, string(c))] for a single byte [c]. *)
Fixpoint CountByte (s : string) (c : ascii) : nat :=
  match s with
  | EmptyString => O
  | String a s' => (if Ascii.eqb a c then 1 else 0)%nat + CountByte s' c
  end.

(** The six ASCII bytes of [unicode.IsSpace]: tab, line feed, vertical tab,
    form feed, carriage return and space. *)
Definition asciiSpace (c : ascii) : bool :=
  let b := N_of_ascii c in
  ((b =? 9) || (b =? 10) || (b =? 11) || (b =? 12) || (b =? 13) || (b =? 32))%N.

(** The two-byte UTF-8 encodings of white space: U+0085 and U+00A0. *)
Definition space2 (c1 c2 : ascii) : bool :=
  let b1 := N_of_ascii c1 in
  let b2 := N_of_ascii c2 in
  ((b1 =? 0xC2) && ((b2 =? 0x85) || (b2 =? 0xA0)))%N.

(** The three-byte UTF-8 encodings of white space: U+1680, U+2000 to U+200A,
    U+2028, U+2029, U+202F, U+205F and U+3000. *)
Definition space3 (c1 c2 c3 : ascii) : bool :=
  let b1 := N_of_ascii c1 in
  let b2 := N_of_ascii c2 in
  let b3 := N_of_ascii c3 in
  (((b1 =? 0xE1) && (b2 =? 0x9A) && (b3 =? 0x80))
   || ((b1 =? 0xE2) && (b2 =? 0x80)
       && (((0x80 <=? b3) && (b3 <=? 0x8A))
           || (b3 =? 0xA8) || (b3 =? 0xA9) || (b3 =? 0xAF)))
   || ((b1 =? 0xE2) && (b2 =? 0x81) && (b3 =? 0x9F))
   || ((b1 =? 0xE3) && (b2 =? 0x80) && (b3 =? 0x80)))%N.

(** [strings.TrimLeftFunc(s, unicode.IsSpace)]: drop leading white-space
    runes.  A byte that starts no white-space rune stops the loop. *)
Fixpoint TrimLeftSpace (s : string) : string :=
  match s with
  | EmptyString => s
  | String c1 s1 =>
      if asciiSpace c1 then TrimLeftSpace s1
      else match s1 with
           | EmptyString => s
           | String c2 s2 =>
               if space2 c1 c2 then TrimLeftSpace s2
               else match s2 with
                    | EmptyString => s
                    | String c3 s3 =>
                        if space3 c1 c2 c3 then TrimLeftSpace s3 else s
                    end
           end
  end.

(** The loop of [strings.TrimRightFunc(s, unicode.IsSpace)] on the bytes of
    [s] taken last to first: the rune decoded at the end of [s] is read here
    from the front, its bytes in reverse. *)
Fixpoint trimRightLoop (r : string) : string :=
  match r with
  | EmptyString => r
  | String c1 r1 =>
      if asciiSpace c1 then trimRightLoop r1
      else match r1 with
           | EmptyString => r
           | String c2 r2 =>
               if space2 c2 c1 then trimRightLoop r2
               else match r2 with
                    | EmptyString => r
                    | String c3 r3 =>
                        if space3 c3 c2 c1 then trimRightLoop r3 else r
                    end
           end
  end.

Definition TrimRightSpace (s : string) : string :=
  String.rev (trimRightLoop (String.rev s)).

(** [strings.TrimSpace(s)]: leading and trailing white space removed, as
    defined by Unicode. *)
Definition TrimSpace (s : string) : string :=
  TrimRightSpace (TrimLeftSpace s).

(** [strings.Repeat(s, count)]. *)
Definition Repeat (s : string) (count : N) : string :=
  N.iter count (String.append s) EmptyString.

End Strings.

Import Strings.

(** ** Package [time]: the broken-down reading of the clock *)

Module Time.

Inductive Weekday :=
  Sunday | Monday | Tuesday | Wednesday | Thursday | Friday | Saturday.

Inductive Month :=
  January | February | March | April | May | June | July | August
  | September | October | November | December.

(** What [time.Now()] returns, by the components [Format] reads: the date,
    the clock, the day of the week and the zone (abbreviation and offset in
    seconds east of UTC). *)
Record Time := mkTime {
  year : Z;
  month : Month;
  day : Z;
  hour : Z;
  minute : Z;
  second : Z;
  weekday : Weekday;
  zoneName : string;
  zoneOffset : Z
}.

Definition shortDayName (d : Weekday) : string :=
  match d with
  | Sunday => "Sun" | Monday => "Mon" | Tuesday => "Tue" | Wednesday => "Wed"
  | Thursday => "Thu" | Friday => "Fri" | Saturday => "Sat"
  end.

Definition shortMonthName (m : Month) : string :=
  match m with
  | January => "Jan" | February => "Feb" | March => "Mar" | April => "Apr"
  | May => "May" | June => "Jun" | July => "Jul" | August => "Aug"
  | September => "Sep" | October => "Oct" | November => "Nov"
  | December => "Dec"
  end.

Fixpoint zeros (n : nat) : string :=
  match n with
  | O => EmptyString
  | S n' => String "0"%char (zeros n')
  end.

(** [appendInt(b, x, width)]: the decimal form of [x], zero-padded to
    [width] digits, after the sign. *)
Definition appendInt (x : Z) (width : nat) : string :=
  let digits := pretty (Z.abs x) in
  (if x <? 0 then "-" else "")
  +:+ zeros (width - String.length digits) +:+ digits.

(** The [MST] element of a layout: the zone abbreviation, or the offset as
    [-0700] when the zone has none. *)
Definition formatZone (t : Time) : string :=
  if String.eqb (zoneName t) "" then
    let zone := Z.quot (zoneOffset t) 60 in
    (if zone <? 0 then "-" else "+")
    +:+ appendInt (Z.abs zone / 60) 2 +:+ appendInt (Z.abs zone mod 60) 2
  else zoneName t.

(** [t.Format(time.RFC1123)], the layout ["Mon, 02 Jan 2006 15:04:05 MST"]. *)
Definition Format_RFC1123 (t : Time) : string :=
  shortDayName (weekday t) +:+ ", " +:+ appendInt (day t) 2 +:+ " "
  +:+ shortMonthName (month t) +:+ " " +:+ appendInt (year t) 4 +:+ " "
  +:+ appendInt (hour t) 2 +:+ ":" +:+ appendInt (minute t) 2 +:+ ":"
  +:+ appendInt (second t) 2 +:+ " " +:+ formatZone t.

End Time.

Import Time.

(** ** Package [bufio]: the line scanner *)

Module Bufio.

(** [bufio.MaxScanTokenSize]: the size of the largest buffer a [Scanner]
    made by [NewScanner] allocates. *)
Definition MaxScanTokenSize : Z := 64 * 1024.

(** The text of [bufio.ErrTooLong]. *)
Definition ErrTooLong : error := "bufio.Scanner: token too long".

(** The raw lines of [data]: every newline-terminated stretch, then the
    unterminated rest when it is not empty. *)
Fixpoint rawLines (data : string) : list string :=
  match data with
  | EmptyString => []
  | String c rest =>
      if Ascii.eqb c "010" then EmptyString :: rawLines rest
      else match rawLines rest with
           | [] => [String c EmptyString]
           | l :: ls => String c l :: ls
           end
  end.

(** [dropCR]: a token loses one trailing carriage return. *)
Definition dropCR (line : string) : string :=
  match String.rev line with
  | String c r => if Ascii.eqb c "013" then String.rev r else line
  | EmptyString => line
  end.

(** The successive results of [scanner.Scan()] with the [ScanLines] split
    function over raw lines [ls]: the tokens [scanner.Text()] returns, and
    what [scanner.Err()] reports once [Scan] has returned false.  A raw line
    that does not fit in the buffer together with its newline stops the
    scanner with [ErrTooLong]. *)
Fixpoint scanTokens (ls : list string) : list string * option error :=
  match ls with
  | [] => ([], None)
  | l :: rest =>
      if MaxScanTokenSize <=? len l then ([], Some ErrTooLong)
      else let '(tokens, err) := scanTokens rest in (dropCR l :: tokens, err)
  end.

Definition Scan (data : string) : list string * option error :=
  scanTokens (rawLines data).

End Bufio.

Import Bufio.

(** ** The server's state *)

Record Task := mkTask {
  ID : string;
  Description : string;
  Owner : string
}.

(** The package-level variables of the server, and the part of the outside
    world its handlers act on. *)
Record State := mkState {
  (* var ( ... ) *)
  clients : gmap Conn string;
  addr : gmap Conn string;
  tasks : gmap string Task;
  taskIDCounter : Z;
  (* the file named by historyLog *)
  history : string;
  openAppendErr : option error;   (* os.OpenFile(historyLog, ...) fails so *)
  openReadErr : option error;     (* os.Open(historyLog) fails so *)
  appendErr : option error;       (* logFile.WriteString fails so *)
  (* the network *)
  closed : gset Conn;             (* connections closed or reset *)
  wire : list (Conn * string);    (* every conn.Write call, oldest first *)
  (* the operator console: the output of package log, oldest first *)
  console : list string
}.

Definition setClients (f : gmap Conn string → gmap Conn string) (st : State) :=
  mkState (f (clients st)) (addr st) (tasks st) (taskIDCounter st)
    (history st) (openAppendErr st) (openReadErr st) (appendErr st)
    (closed st) (wire st) (console st).

Definition setAddr (f : gmap Conn string → gmap Conn string) (st : State) :=
  mkState (clients st) (f (addr st)) (tasks st) (taskIDCounter st)
    (history st) (openAppendErr st) (openReadErr st) (appendErr st)
    (closed st) (wire st) (console st).

Definition setTasks (f : gmap string Task → gmap string Task) (st : State) :=
  mkState (clients st) (addr st) (f (tasks st)) (taskIDCounter st)
    (history st) (openAppendErr st) (openReadErr st) (appendErr st)
    (closed st) (wire st) (console st).

Definition setTaskIDCounter (n : Z) (st : State) :=
  mkState (clients st) (addr st) (tasks st) n
    (history st) (openAppendErr st) (openReadErr st) (appendErr st)
    (closed st) (wire st) (console st).

Definition setHistory (h : string) (st : State) :=
  mkState (clients st) (addr st) (tasks st) (taskIDCounter st)
    h (openAppendErr st) (openReadErr st) (appendErr st)
    (closed st) (wire st) (console st).

Definition setFaults (openAppend openRead append : option error) (st : State) :=
  mkState (clients st) (addr st) (tasks st) (taskIDCounter st)
    (history st) openAppend openRead append (closed st) (wire st) (console st).

Definition setClosed (f : gset Conn → gset Conn) (st : State) :=
  mkState (clients st) (addr st) (tasks st) (taskIDCounter st)
    (history st) (openAppendErr st) (openReadErr st) (appendErr st)
    (f (closed st)) (wire st) (console st).

Definition setWire (w : list (Conn * string)) (st : State) :=
  mkState (clients st) (addr st) (tasks st) (taskIDCounter st)
    (history st) (openAppendErr st) (openReadErr st) (appendErr st)
    (closed st) w (console st).

Definition setConsole (c : list string) (st : State) :=
  mkState (clients st) (addr st) (tasks st) (taskIDCounter st)
    (history st) (openAppendErr st) (openReadErr st) (appendErr st)
    (closed st) (wire st) c.

(** The state of a server that has just started, over a history file with
    contents [h]. *)
Definition initState (h : string) : State :=
  mkState ∅ ∅ ∅ 0 h None None None ∅ [] [].

(** [for k, v := range m]: Go visits the entries of a map in an order of its
    own choosing.  The order is an input of the model; all that is known of
    it is that every entry is visited once. *)
Class MapRange := {
  range : ∀ {K} `{Countable K} {V}, gmap K V → list (K * V);
  range_perm : ∀ {K} `{Countable K} {V} (m : gmap K V),
    range m ≡ₚ map_to_list m
}.

(** One such order: that of the keys' encoding. *)
Definition keyOrder : MapRange :=
  {| range := λ K _ _ V, map_to_list;
     range_perm := λ K _ _ V m, reflexivity (map_to_list m) |}.

(** ** The handlers of [server.go] *)

Section Handlers.
Context {order : MapRange}.

(** The error of a write on a closed connection ([net.ErrClosed]). *)
Definition errClosed : error := "use of closed network connection".

(** [conn.Write(b)]: the call is recorded on the wire; it fails on a
    connection that is closed. *)
Definition connWrite (conn : Conn) (b : string) (st : State)
  : option error * State :=
  (if decide (conn ∈ closed st) then Some errClosed else None,
   setWire (wire st ++ [(conn, b)]) st).

(** [conn.Close()]. *)
Definition connClose (conn : Conn) (st : State) : State :=
  setClosed (λ s, {[conn]} ∪ s) st.

(** [log.Println] and [log.Printf]: one line on the console (the date and
    time package log puts before it are left out). *)
Definition logPrint (line : string) (st : State) : State :=
  setConsole (console st ++ [line]) st.

(** [addr[conn]], the zero value when the key is missing. *)
Definition addrOf (conn : Conn) (st : State) : string :=
  default EmptyString (addr st !! conn).

Definition sendUsersList (conn : Conn) (st : State) : State :=
  let users := (range (clients st)).*2 in
  let usersList := Join users ", " in
  let message := "Connected users: " +:+ usersList +:+ LF in
  (connWrite conn message st).2.

Definition broadcastMessage (message : string) (sender : Conn) (st : State)
  : State :=
  foldl (λ st conn,
           if decide (conn ≠ sender) then (connWrite conn message st).2
           else st)
        st (range (clients st)).*1.

(** [changeNickname]: returns the new value of [*nickname] with the state. *)
Definition changeNickname (conn : Conn) (nickname newNickname : string)
    (st : State) : string * State :=
  let oldNickname := nickname in
  let st := setClients (<[conn := newNickname]>) st in
  let st := (connWrite conn ("Nickname changed to " +:+ newNickname +:+ LF) st).2 in
  let st := logPrint ("Client " +:+ addrOf conn st +:+ " (" +:+ oldNickname
                      +:+ ") changed nickname to " +:+ newNickname +:+ ".") st in
  (newNickname,
   broadcastMessage ("'" +:+ oldNickname +:+ "' changed nickname to '"
                     +:+ newNickname +:+ "'" +:+ LF) conn st).

(** The loop of [sendHistory] over the tokens still to come: [true] when the
    scanner was run to its end, [false] when a failed write broke the loop
    (the scanner has then reported no error yet). *)
Fixpoint sendLines (conn : Conn) (tokens : list string) (st : State)
  : bool * State :=
  match tokens with
  | [] => (true, st)
  | text :: rest =>
      let message := text +:+ LF in
      match connWrite conn message st with
      | (Some err, st) =>
          (false, logPrint ("Error sending history to client: " +:+ err) st)
      | (None, st) => sendLines conn rest st
      end
  end.

Definition sendHistory (conn : Conn) (st : State) : State :=
  match openReadErr st with
  | Some _ => (connWrite conn ("Error reading history." +:+ LF) st).2
  | None =>
      let '(tokens, scanErr) := Scan (history st) in
      match sendLines conn tokens st with
      | (true, st) =>
          match scanErr with
          | Some err =>
              let st := logPrint ("Error reading from history file: " +:+ err) st in
              (connWrite conn ("Error occurred while reading history." +:+ LF) st).2
          | None => st
          end
      | (false, st) => st
      end
  end.

(** [logFile.WriteString(s)] on the file opened with [O_APPEND]: the bytes
    go to the end of the file, or nowhere when the write fails. *)
Definition WriteString (s : string) (st : State) : option error * State :=
  match appendErr st with
  | Some err => (Some err, st)
  | None => (None, setHistory (history st +:+ s) st)
  end.

(** [logMessage], at the reading [now] of the clock. *)
Definition logMessage (nickname message : string) (now : Time) (st : State)
  : State :=
  let currentTime := Format_RFC1123 now in
  let logEntry := currentTime +:+ ": " +:+ nickname +:+ " - " +:+ message +:+ LF in
  (WriteString logEntry st).2.

Definition addTask (conn : Conn) (owner description : string) (st : State)
  : State :=
  let st := setTaskIDCounter (wrapInt (taskIDCounter st + 1)) st in
  let taskID := pretty (taskIDCounter st) in
  let st := setTasks (<[taskID := mkTask taskID description owner]>) st in
  (connWrite conn ("Task added with ID " +:+ taskID +:+ LF) st).2.

Definition taskLine (task : Task) : string :=
  "ID: " +:+ ID task +:+ ", Owner: " +:+ Owner task
  +:+ ", Description: " +:+ Description task.

Definition listTasks (conn : Conn) (st : State) : State :=
  let taskDescriptions := taskLine <$> (range (tasks st)).*2 in
  if decide (length taskDescriptions = 0%nat) then
    (connWrite conn ("No tasks found." +:+ LF) st).2
  else
    (connWrite conn (Join taskDescriptions "; " +:+ LF) st).2.

Definition deleteTask (conn : Conn) (taskID : string) (st : State) : State :=
  match tasks st !! taskID with
  | Some _ =>
      let st := setTasks (delete taskID) st in
      (connWrite conn ("Task deleted successfully." +:+ LF) st).2
  | None => (connWrite conn ("Task not found." +:+ LF) st).2
  end.

(** [handleCommands]: [message] is the trimmed line, [nickname] the value of
    the handler's variable; the new value is returned with the state.  The
    log file is the one of the state, open for appending. *)
Definition handleCommands (conn : Conn) (nickname message : string)
    (now : Time) (st : State) : string * State :=
  if HasPrefix message "/quit" then
    (nickname, connClose conn (connWrite conn ("Goodbye!" +:+ LF) st).2)
  else if HasPrefix message "/history" then
    (nickname, sendHistory conn st)
  else if HasPrefix message "/nickname" then
    match SplitN message " " 2 with
    | [_; arg] => changeNickname conn nickname arg st
    | _ => (nickname, st)
    end
  else if HasPrefix message "/users" then
    (nickname, sendUsersList conn st)
  else if HasPrefix message "/task add" then
    match SplitN message " " 3 with
    | [_; _; description] => (nickname, addTask conn nickname description st)
    | _ => (nickname, st)
    end
  else if HasPrefix message "/task list" then
    (nickname, listTasks conn st)
  else if HasPrefix message "/task delete" then
    match SplitN message " " 3 with
    | [_; _; taskID] => (nickname, deleteTask conn taskID st)
    | _ => (nickname, st)
    end
  else
    let st := logMessage nickname message now st in
    let response := nickname +:+ ": " +:+ message +:+ LF in
    (nickname, broadcastMessage response conn st).

(** ** [handleConnection], one step at a time

    A handler runs in a goroutine of its own; between two reads of one
    handler the others may run.  The [World] holds, besides the shared
    state, the [nickname] variable of every handler that has reached its
    read loop; an [Event] is one atomic piece of a handler. *)

Record World := mkWorld {
  server : State;
  handlers : gmap Conn string
}.

Inductive Event :=
  (* [go handleConnection(conn)], up to the read loop; [remote] is
     [conn.RemoteAddr().String()] *)
  | Accept (conn : Conn) (remote : string)
  (* [ReadString] returned the line [netData] at the clock reading [now] *)
  | Line (conn : Conn) (now : Time) (netData : string)
  (* [ReadString] returned an error *)
  | ReadError (conn : Conn)
  (* the peer reset the connection *)
  | Reset (conn : Conn)
  (* the file system changed the way it fails *)
  | Faults (openAppend openRead append : option error).

(** Lines 37 to 40: the registration. *)
Definition register (conn : Conn) (remote : string) (st : State) : State :=
  setAddr (<[conn := remote]>) (setClients (<[conn := "Anonymous"]>) st).

(** Lines 42 to 48: the deferred function. *)
Definition deregister (conn : Conn) (st : State) : State :=
  connClose conn (setAddr (delete conn) (setClients (delete conn) st)).

(** Lines 35 to 57: registration, then the history log is opened; when that
    fails the handler returns, which runs the deferred function.  The result
    tells whether the handler reached its loop. *)
Definition handleConnection_start (conn : Conn) (remote : string) (st : State)
  : bool * State :=
  let nickname := "Anonymous" in
  let st := register conn remote st in
  match openAppendErr st with
  | Some err =>
      let st := logPrint ("Error opening history log file: " +:+ err) st in
      (false, deregister conn st)
  | None =>
      (true, logPrint ("Client " +:+ addrOf conn st +:+ " (" +:+ nickname
                       +:+ ") connected.") st)
  end.

(** Lines 61 to 65 and the deferred function: the way out of the loop. *)
Definition handleConnection_exit (conn : Conn) (nickname : string) (st : State)
  : State :=
  let st := logPrint ("Client " +:+ addrOf conn st +:+ " (" +:+ nickname
                      +:+ ") disconnected.") st in
  let st := broadcastMessage (nickname +:+ " disconnected from the chat!" +:+ LF)
              conn st in
  deregister conn st.

(** Line 67: one line read and dispatched. *)
Definition handleConnection_line (conn : Conn) (nickname : string) (now : Time)
    (netData : string) (st : State) : string * State :=
  handleCommands conn nickname (TrimSpace netData) now st.

(** A connection handle is new when it is accepted; a handler reads a line
    only from a connection that is not closed.  An event that cannot happen
    in the world leaves it as it is. *)
Definition step (w : World) (e : Event) : World :=
  match e with
  | Accept conn remote =>
      if decide (conn ∈ dom (handlers w) ∨ conn ∈ dom (clients (server w))
                 ∨ conn ∈ closed (server w)) then w
      else match handleConnection_start conn remote (server w) with
           | (true, st) => mkWorld st (<[conn := "Anonymous"]> (handlers w))
           | (false, st) => mkWorld st (handlers w)
           end
  | Line conn now netData =>
      match handlers w !! conn with
      | Some nickname =>
          if decide (conn ∈ closed (server w)) then w
          else let '(nickname, st) :=
                 handleConnection_line conn nickname now netData (server w) in
               mkWorld st (<[conn := nickname]> (handlers w))
      | None => w
      end
  | ReadError conn =>
      match handlers w !! conn with
      | Some nickname =>
          mkWorld (handleConnection_exit conn nickname (server w))
                  (delete conn (handlers w))
      | None => w
      end
  | Reset conn => mkWorld (connClose conn (server w)) (handlers w)
  | Faults openAppend openRead append =>
      mkWorld (setFaults openAppend openRead append (server w)) (handlers w)
  end.

Definition run (w : World) (events : list Event) : World :=
  foldl step w events.

Definition initWorld (h : string) : World := mkWorld (initState h) ∅.

(** The messages written to [conn] among the calls [w]. *)
Definition writesTo (conn : Conn) (w : list (Conn * string)) : list string :=
  (filter (λ cw, cw.1 = conn) w).*2.

(** The recipients of a broadcast, in the order they are written to. *)
Definition recipients (sender : Conn) (st : State) : list Conn :=
  filter (λ c, c ≠ sender) (range (clients st)).*1.

End Handlers.

(** ** Shorthands of the statements *)

(** The prefixes [handleCommands] tests, in its order. *)
Definition commandPrefixes : list string :=
  ["/quit"; "/history"; "/nickname"; "/users"; "/task add"; "/task list";
   "/task delete"].

(** [message] starts with one of the command prefixes. *)
Definition recognized (message : string) : bool :=
  existsb (HasPrefix message) commandPrefixes.




(** The value of [taskID] in a call of [addTask] in state [st]: the counter
    after its increment, as [%d] prints it. *)
Definition nextTaskID (st : State) : string :=
  pretty (wrapInt (taskIDCounter st + 1)).


(** A reading of the clock, for the examples. *)
Definition sampleTime : Time := mkTime 2026 October 30 19 26 0 Friday "UTC" 0.

(** The line [logMessage] formats, without its line feed. *)
Definition entryLine (nickname message : string) (now : Time) : string :=
  Format_RFC1123 now +:+ ": " +:+ nickname +:+ " - " +:+ message.

(** [s] holds no line feed. *)
Definition oneLine (s : string) : Prop := CountByte s "010" = 0%nat.

(** What [ReadString('\n')] returns without an error: a text that ends with
    the first line feed it holds. *)
Definition readLine (netData : string) : Prop :=
  ∃ body, netData = body +:+ LF ∧ oneLine body.






(** Two connections in their read loops, as ["Alice"] and ["Bob"]; the
    iteration order is that of the keys. *)
Definition sampleWorld : World :=
  run (order := keyOrder) (initWorld "")
    [Accept 1 "10.0.0.1:5000"; Accept 2 "10.0.0.2:5000";
     Line 1 sampleTime ("/nickname Alice" +:+ LF);
     Line 2 sampleTime ("/nickname Bob" +:+ LF)].

Definition sampleState : State := server sampleWorld.

(** A chat message of 64 KiB. *)
Definition longMessage : string := Repeat "a" 65536.

(** The [nickname] variable of every running handler is the nickname the
    registry holds for its connection. *)
Definition coherent (w : World) : Prop :=
  ∀ conn name, handlers w !! conn = Some name →
               clients (server w) !! conn = Some name.

(** Every nickname of the registry is non-empty. *)
Definition nonemptyNames (st : State) : Prop :=
  ∀ conn name, clients st !! conn = Some name → name ≠ "".

(** ** The earlier server ([src/unnamed/part_000]) *)

Module Legacy.
Section Server.
Context {order : MapRange}.

(** [handleCommands] of the earlier server, which has no task ledger.  Its
    other functions are those of [server.go], line for line, and are used
    as they stand. *)
Definition handleCommands (conn : Conn) (nickname message : string)
    (now : Time) (st : State) : string * State :=
  if HasPrefix message "/quit" then
    (nickname, connClose conn (connWrite conn ("Goodbye!" +:+ LF) st).2)
  else if HasPrefix message "/history" then
    (nickname, sendHistory conn st)
  else if HasPrefix message "/nickname" then
    match SplitN message " " 2 with
    | [_; arg] => changeNickname conn nickname arg st
    | _ => (nickname, st)
    end
  else if HasPrefix message "/users" then
    (nickname, sendUsersList conn st)
  else
    let st := logMessage nickname message now st in
    let response := nickname +:+ ": " +:+ message +:+ LF in
    (nickname, broadcastMessage response conn st).

End Server.
End Legacy.

(** ** The client ([cmd/client/client.go]) *)

Module Client.

(** What a run of the client has done: the byte strings written to the
    connection and the lines printed on the terminal, oldest first, and
    whether it left through [os.Exit]. *)
Record Run := mkRun {
  sent : list string;
  printed : list string;
  exited : bool
}.

(** [writeToServer] over the successive results of
    [consoleReader.ReadString('\n')], whose error is not looked at. *)
Fixpoint writeToServer (inputs : list string) : Run :=
  match inputs with
  | [] => mkRun [] [] false
  | input :: rest =>
      let trimmedInput := TrimSpace input in
      if String.eqb trimmedInput "/quit" then
        mkRun ["/quit" +:+ LF] ["Disconnecting from server..." +:+ LF] true
      else
        let r := writeToServer rest in
        mkRun (input :: sent r) (printed r) (exited r)
  end.

(** Lines 52 to 56 of [main]: the line sent first, from the answer [input]
    to the nickname prompt. *)
Definition nicknameLine (input : string) : string :=
  let nickname := TrimSpace input in
  "/nickname " +:+ nickname +:+ LF.

End Client.

(** ** More shorthands *)



(** The outcomes of one call of [handleCommands]: the branch taken, with
    the argument it took from the line. *)
Inductive Outcome {order : MapRange} (conn : Conn) (nickname message : string)
    (now : Time) (st : State) : string * State → Prop :=
  | DoQuit :
      Outcome conn nickname message now st
        (nickname, connClose conn (connWrite conn ("Goodbye!" +:+ LF) st).2)
  | DoHistory :
      Outcome conn nickname message now st (nickname, sendHistory conn st)
  | DoNickname (before arg : string) :
      SplitN message " " 2 = [before; arg] →
      Outcome conn nickname message now st
        (changeNickname conn nickname arg st)
  | DoNothing :
      Outcome conn nickname message now st (nickname, st)
  | DoUsers :
      Outcome conn nickname message now st (nickname, sendUsersList conn st)
  | DoTaskAdd (description : string) :
      Outcome conn nickname message now st
        (nickname, addTask conn nickname description st)
  | DoTaskList :
      Outcome conn nickname message now st (nickname, listTasks conn st)
  | DoTaskDelete (taskID : string) :
      Outcome conn nickname message now st
        (nickname, deleteTask conn taskID st)
  | DoChat :
      Outcome conn nickname message now st
        (nickname,
         broadcastMessage (nickname +:+ ": " +:+ message +:+ LF) conn
           (logMessage nickname message now st)).

(* ================================================================== *)
(** * Properties *)

(** ** Strings *)

Lemma string_app_nil_r (s : string) : s +:+ "" = s.
Proof. induction s as [|c s IH]; simpl; congruence. Qed.

Lemma string_app_assoc (s t u : string) : (s +:+ t) +:+ u = s +:+ t +:+ u.
Proof. induction s as [|c s IH]; simpl; congruence. Qed.

Lemma prefix_app (p r : string) : String.prefix p (p +:+ r) = true.
Proof.
  induction p as [|c p IH]; simpl; [by destruct r|].
  destruct (ascii_dec c c); [done|congruence].
Qed.

Lemma prefix_inv (p s : string) :
  String.prefix p s = true → ∃ r, s = p +:+ r.
Proof.
  revert s. induction p as [|c p IH]; intros s Hp.
  - by exists s.
  - destruct s as [|c' s]; simpl in Hp; [done|].
    destruct (ascii_dec c c') as [<-|]; [|done].
    destruct (IH s Hp) as [r ->]. by exists r.
Qed.

Lemma HasPrefix_app (s p : string) :
  HasPrefix s p = true ↔ ∃ r, s = p +:+ r.
Proof.
  split; [apply prefix_inv|]. intros [r ->]. apply prefix_app.
Qed.

(** No command prefix is a prefix of another: a line has at most one. *)
Lemma commandPrefixes_exclusive (message p q : string) :
  p ∈ commandPrefixes → q ∈ commandPrefixes → p ≠ q →
  HasPrefix message p = true → HasPrefix message q = false.
Proof.
  unfold commandPrefixes. intros Hp Hq Hne [r ->]%HasPrefix_app.
  repeat (apply elem_of_cons in Hp as [->|Hp]);
    try (by apply elem_of_nil in Hp);
    repeat (apply elem_of_cons in Hq as [->|Hq]);
    try (by apply elem_of_nil in Hq);
    done.
Qed.

Lemma recognized_false (message : string) :
  recognized message = false →
  Forall (λ p, HasPrefix message p = false) commandPrefixes.
Proof.
  unfold recognized, commandPrefixes. simpl.
  intros Hr. repeat (apply orb_false_iff in Hr as [? Hr]).
  repeat constructor; assumption.
Qed.

(** ** Cutting at spaces *)

Lemma prefix_nil (s : string) : String.prefix "" s = true.
Proof. by destruct s. Qed.

Lemma Cut_space_cons (c : ascii) (s : string) :
  Cut (String c s) " " =
  if Ascii.eqb c " " then Some (EmptyString, s)
  else match Cut s " " with
       | Some (before, after) => Some (String c before, after)
       | None => None
       end.
Proof.
  change (Cut (String c s) " ") with
    (if (if ascii_dec " " c then String.prefix "" s else false)
     then Some (EmptyString, s)
     else match Cut s " " with
          | Some (before, after) => Some (String c before, after)
          | None => None
          end).
  rewrite prefix_nil.
  destruct (ascii_dec " " c) as [<-|Hc]; [done|].
  destruct (Ascii.eqb_spec c " "); [congruence|done].
Qed.

Lemma Cut_space_Some (s before after : string) :
  Cut s " " = Some (before, after) →
  s = before +:+ " " +:+ after ∧ CountByte before " " = 0%nat.
Proof.
  revert before. induction s as [|c s IH]; intros before; [done|].
  rewrite Cut_space_cons. destruct (Ascii.eqb_spec c " ") as [->|Hc].
  - by intros [= <- <-].
  - destruct (Cut s " ") as [[b a]|] eqn:Hcut; [|done].
    intros [= <- <-]. destruct (IH b eq_refl) as [-> Hb].
    split; [done|]. simpl. rewrite Hb.
    destruct (Ascii.eqb_spec c " "); [congruence|done].
Qed.

Lemma Cut_space_None (s : string) :
  Cut s " " = None ↔ CountByte s " " = 0%nat.
Proof.
  induction s as [|c s IH]; [done|].
  rewrite Cut_space_cons. simpl.
  destruct (Ascii.eqb_spec c " ") as [->|_]; [done|].
  destruct (Cut s " ") as [[b a]|]; simpl.
  - split; [done|]. intros Hs. by apply IH in Hs.
  - split; [|done]. intros _. by apply IH.
Qed.

Lemma CountByte_app (s t : string) (c : ascii) :
  CountByte (s +:+ t) c = (CountByte s c + CountByte t c)%nat.
Proof. induction s as [|a s IH]; simpl; [done|]. rewrite IH. lia. Qed.

(** [SplitN] gives one substring more than it finds separators, and at most
    [n]. *)
Lemma splitLoop_length (n : nat) (s : string) :
  length (splitLoop n s " ") = S (n `min` CountByte s " ").
Proof.
  revert s. induction n as [|n IH]; intros s; simpl; [done|].
  destruct (Cut s " ") as [[b a]|] eqn:Hcut.
  - apply Cut_space_Some in Hcut as [-> Hb]. simpl. rewrite IH.
    rewrite CountByte_app, Hb. simpl. done.
  - apply Cut_space_None in Hcut. rewrite Hcut. simpl. lia.
Qed.

Lemma SplitN_2_inv (message before arg : string) :
  SplitN message " " 2 = [before; arg] → message = before +:+ " " +:+ arg.
Proof.
  unfold SplitN, splitLoop.
  destruct (Cut message " ") as [[b a]|] eqn:Hcut; [|done].
  intros [= <- <-]. by apply Cut_space_Some in Hcut as [-> _].
Qed.

(** ** Reversal and trimming *)

Lemma rev_app_spec (s acc : string) :
  String.rev_app s acc = String.rev s +:+ acc.
Proof.
  unfold String.rev. revert acc.
  induction s as [|c s IH]; intros acc; simpl; [done|].
  rewrite IH, (IH (String c "")), string_app_assoc. done.
Qed.

Lemma rev_cons (c : ascii) (s : string) :
  String.rev (String c s) = String.rev s +:+ String c "".
Proof. unfold String.rev at 1. simpl. apply rev_app_spec. Qed.

Lemma rev_snoc (s : string) (c : ascii) :
  String.rev (s +:+ String c "") = String c (String.rev s).
Proof.
  induction s as [|a s IH]; simpl; [done|].
  by rewrite !rev_cons, IH.
Qed.

Lemma rev_involutive (s : string) : String.rev (String.rev s) = s.
Proof.
  induction s as [|c s IH]; [done|]. by rewrite rev_cons, rev_snoc, IH.
Qed.

(** What the right-trimming loop leaves does not start with an ASCII space:
    in the order of the string, it does not end with one. *)
Lemma trimRightLoop_head (r : string) (c : ascii) (r' : string) :
  trimRightLoop r = String c r' → asciiSpace c = false.
Proof.
  assert (∀ n r, (String.length r ≤ n)%nat →
            trimRightLoop r = String c r' → asciiSpace c = false) as Hn.
  { clear r. induction n as [|n IH]; intros r Hlen.
    - destruct r; [done|simpl in Hlen; lia].
    - destruct r as [|c1 r1]; [done|]. cbn [trimRightLoop].
      destruct (asciiSpace c1) eqn:H1.
      { apply IH. simpl in Hlen. lia. }
      destruct r1 as [|c2 r2]; [by intros [= <- <-]|].
      destruct (space2 c2 c1).
      { apply IH. simpl in Hlen. lia. }
      destruct r2 as [|c3 r3]; [by intros [= <- <-]|].
      destruct (space3 c3 c2 c1); [|by intros [= <- <-]].
      apply IH. simpl in Hlen. lia. }
  by apply (Hn (String.length r)).
Qed.

Lemma TrimSpace_last (s before : string) (c : ascii) :
  TrimSpace s = before +:+ String c "" → asciiSpace c = false.
Proof.
  unfold TrimSpace, TrimRightSpace. intros Hs.
  apply (f_equal String.rev) in Hs. rewrite rev_involutive, rev_snoc in Hs.
  by apply trimRightLoop_head in Hs.
Qed.

(** A trimmed line split in two at its first space has a second part. *)
Lemma SplitN_2_trimmed (netData before arg : string) :
  SplitN (TrimSpace netData) " " 2 = [before; arg] → arg ≠ "".
Proof.
  intros Hm%SplitN_2_inv ->. by apply TrimSpace_last in Hm.
Qed.

(** ** Lines *)

Lemma pretty_N_go_oneLine (x : N) (s : string) :
  CountByte (pretty_N_go x s) "010" = CountByte s "010".
Proof.
  revert s. induction (N.lt_wf_0 x) as [x _ IH]; intros s.
  destruct (decide (x = 0)%N) as [->|Hx]; [by rewrite pretty_N_go_0|].
  rewrite pretty_N_go_step by lia. rewrite IH by (apply N.div_lt; lia).
  unfold pretty_N_char. by repeat case_match.
Qed.

Lemma pretty_Z_oneLine (x : Z) : oneLine (pretty x).
Proof.
  unfold oneLine.
  assert (∀ p : positive, CountByte (pretty p) "010" = 0%nat) as Hp.
  { intros p. unfold pretty, pretty_positive, pretty, pretty_N.
    case_decide; [done|]. by rewrite pretty_N_go_oneLine. }
  destruct x as [|p|p]; [done|apply Hp|].
  change (pretty (Z.neg p)) with ("-" +:+ pretty p).
  by rewrite CountByte_app, Hp.
Qed.

Lemma oneLine_app (s t : string) : oneLine s → oneLine t → oneLine (s +:+ t).
Proof. unfold oneLine. intros Hs Ht. rewrite CountByte_app. lia. Qed.

Lemma zeros_oneLine (n : nat) : oneLine (zeros n).
Proof. induction n; [done|]. exact IHn. Qed.

Lemma appendInt_oneLine (x : Z) (width : nat) : oneLine (appendInt x width).
Proof.
  unfold appendInt. repeat apply oneLine_app.
  - by destruct (x <? 0).
  - apply zeros_oneLine.
  - apply pretty_Z_oneLine.
Qed.

(** The time stamp is a single line when the zone abbreviation is. *)
Lemma Format_RFC1123_oneLine (t : Time) :
  oneLine (zoneName t) → oneLine (Format_RFC1123 t).
Proof.
  intros Hz. unfold Format_RFC1123.
  assert (oneLine (formatZone t)) as Hzone.
  { unfold formatZone. destruct (String.eqb (zoneName t) ""); [|done].
    repeat first [apply appendInt_oneLine | apply oneLine_app].
    by destruct (_ <? 0). }
  repeat first [apply appendInt_oneLine | exact Hzone | apply oneLine_app];
    try done.
  - by destruct (weekday t).
  - by destruct (month t).
Qed.

Lemma entryLine_LF (nickname message : string) (now : Time) :
  Format_RFC1123 now +:+ ": " +:+ nickname +:+ " - " +:+ message +:+ LF
  = entryLine nickname message now +:+ LF.
Proof. unfold entryLine. by rewrite !string_app_assoc. Qed.

Lemma entryLine_oneLine (nickname message : string) (now : Time) :
  oneLine (zoneName now) → oneLine nickname → oneLine message →
  oneLine (entryLine nickname message now).
Proof.
  intros Hz Hn Hm. unfold entryLine.
  repeat first [by apply Format_RFC1123_oneLine | apply oneLine_app]; done.
Qed.

Lemma rawLines_cons (c : ascii) (s : string) :
  rawLines (String c s) =
  if Ascii.eqb c "010" then EmptyString :: rawLines s
  else match rawLines s with
       | [] => [String c EmptyString]
       | l :: ls => String c l :: ls
       end.
Proof. done. Qed.

(** A text without line feed, followed by one, is one raw line. *)
Lemma rawLines_line (s : string) : oneLine s → rawLines (s +:+ LF) = [s].
Proof.
  unfold oneLine. induction s as [|c s IH]; [done|].
  change (String c s +:+ LF) with (String c (s +:+ LF)).
  rewrite rawLines_cons. cbn [CountByte].
  destruct (Ascii.eqb c "010"); [done|]. intros Hs. by rewrite IH.
Qed.



(** ** Last bytes *)

Lemma snoc_inj (s t : string) (c d : ascii) :
  s +:+ String c "" = t +:+ String d "" → s = t ∧ c = d.
Proof.
  intros Heq. apply (f_equal String.rev) in Heq. rewrite !rev_snoc in Heq.
  injection Heq as -> Hrev. split; [|done].
  by rewrite <- (rev_involutive s), Hrev, rev_involutive.
Qed.

Lemma string_snoc_cases (s : string) :
  s = "" ∨ ∃ s' c, s = s' +:+ String c "".
Proof.
  destruct (String.rev s) as [|c r] eqn:Hr.
  - left. by rewrite <- (rev_involutive s), Hr.
  - right. exists (String.rev r), c.
    by rewrite <- (rev_involutive s), Hr, rev_cons.
Qed.


(** ** What trimming keeps *)

Lemma TrimLeftSpace_suffix (s : string) : ∃ a, s = a +:+ TrimLeftSpace s.
Proof.
  assert (∀ n s, (String.length s ≤ n)%nat → ∃ a, s = a +:+ TrimLeftSpace s)
    as Hn.
  { clear s. induction n as [|n IH]; intros s Hlen.
    - destruct s; [by exists ""|simpl in Hlen; lia].
    - destruct s as [|c1 s1]; [by exists ""|]. cbn [TrimLeftSpace].
      destruct (asciiSpace c1).
      { destruct (IH s1) as [a Ha]; [simpl in Hlen; lia|].
        exists (String c1 a). simpl. by rewrite <- Ha. }
      destruct s1 as [|c2 s2]; [by exists ""|].
      destruct (space2 c1 c2).
      { destruct (IH s2) as [a Ha]; [simpl in Hlen; lia|].
        exists (String c1 (String c2 a)). simpl. by rewrite <- Ha. }
      destruct s2 as [|c3 s3]; [by exists ""|].
      destruct (space3 c1 c2 c3); [|by exists ""].
      destruct (IH s3) as [a Ha]; [simpl in Hlen; lia|].
      exists (String c1 (String c2 (String c3 a))). simpl. by rewrite <- Ha. }
  by apply (Hn (String.length s)).
Qed.

Lemma trimRightLoop_suffix (r : string) : ∃ a, r = a +:+ trimRightLoop r.
Proof.
  assert (∀ n r, (String.length r ≤ n)%nat → ∃ a, r = a +:+ trimRightLoop r)
    as Hn.
  { clear r. induction n as [|n IH]; intros r Hlen.
    - destruct r; [by exists ""|simpl in Hlen; lia].
    - destruct r as [|c1 r1]; [by exists ""|]. cbn [trimRightLoop].
      destruct (asciiSpace c1).
      { destruct (IH r1) as [a Ha]; [simpl in Hlen; lia|].
        exists (String c1 a). simpl. by rewrite <- Ha. }
      destruct r1 as [|c2 r2]; [by exists ""|].
      destruct (space2 c2 c1).
      { destruct (IH r2) as [a Ha]; [simpl in Hlen; lia|].
        exists (String c1 (String c2 a)). simpl. by rewrite <- Ha. }
      destruct r2 as [|c3 r3]; [by exists ""|].
      destruct (space3 c3 c2 c1); [|by exists ""].
      destruct (IH r3) as [a Ha]; [simpl in Hlen; lia|].
      exists (String c1 (String c2 (String c3 a))). simpl. by rewrite <- Ha. }
  by apply (Hn (String.length r)).
Qed.

Lemma rev_app_distr (s t : string) :
  String.rev (s +:+ t) = String.rev t +:+ String.rev s.
Proof.
  induction s as [|c s IH]; simpl; [by rewrite string_app_nil_r|].
  by rewrite !rev_cons, IH, string_app_assoc.
Qed.

(** The trimmed line is a stretch of the line. *)
Lemma TrimSpace_infix (s : string) : ∃ a b, s = a +:+ TrimSpace s +:+ b.
Proof.
  unfold TrimSpace, TrimRightSpace.
  destruct (TrimLeftSpace_suffix s) as [a Ha].
  destruct (trimRightLoop_suffix (String.rev (TrimLeftSpace s))) as [b Hb].
  exists a, (String.rev b). rewrite Ha at 1. f_equal.
  by rewrite <- rev_app_distr, <- Hb, rev_involutive.
Qed.

(** The trimmed form of a line read from the connection holds no line
    feed. *)
Lemma TrimSpace_oneLine (netData : string) :
  readLine netData → oneLine (TrimSpace netData).
Proof.
  intros (body & Hdata & Hbody).
  destruct (TrimSpace_infix netData) as (a & b & Hab).
  pose proof (f_equal (λ s, CountByte s "010") Hab) as Hcount.
  cbn beta in Hcount. rewrite Hdata in Hcount at 1.
  rewrite !CountByte_app, Hbody in Hcount. cbn in Hcount.
  unfold oneLine.
  destruct (CountByte (TrimSpace netData) "010") as [|n] eqn:Ht; [done|].
  exfalso.
  assert (b = "") as ->.
  { destruct (string_snoc_cases b) as [->|(b' & c & ->)]; [done|].
    rewrite Hdata, <- !string_app_assoc in Hab.
    apply snoc_inj in Hab as [_ <-].
    rewrite CountByte_app in Hcount. cbn in Hcount. lia. }
  rewrite string_app_nil_r in Hab.
  destruct (string_snoc_cases (TrimSpace netData)) as [Hnil|(t & c & Hc)].
  { by rewrite Hnil in Ht. }
  pose proof (TrimSpace_last _ _ _ Hc) as Hsp.
  rewrite Hc in Hab. rewrite Hdata, <- string_app_assoc in Hab.
  apply snoc_inj in Hab as [_ <-]. done.
Qed.


(** ** Scanning a log of entries *)


(** ** The task counter *)




(** [addTask] stores the task under the id it computes and tells it to the
    caller. *)
Lemma addTask_assigns (conn : Conn) (owner description : string) (st : State) :
  tasks (addTask conn owner description st) !! nextTaskID st
  = Some (mkTask (nextTaskID st) description owner)
  ∧ wire (addTask conn owner description st)
    = wire st ++ [(conn, "Task added with ID " +:+ nextTaskID st +:+ LF)]
  ∧ taskIDCounter (addTask conn owner description st)
    = wrapInt (taskIDCounter st + 1).
Proof.
  split; [|done]. apply (lookup_insert_eq (tasks st)).
Qed.


(** ** C5: task ids *)


(** ** Map iteration *)

Section Properties.
Context {order : MapRange}.

Lemma range_keys_perm {K} `{Countable K} {V} (m : gmap K V) :
  (range m).*1 ≡ₚ (map_to_list m).*1.
Proof. by rewrite range_perm. Qed.

Lemma range_keys_NoDup {K} `{Countable K} {V} (m : gmap K V) :
  NoDup (range m).*1.
Proof. rewrite range_keys_perm. apply NoDup_fst_map_to_list. Qed.

Lemma elem_of_range_keys {K} `{Countable K} {V} (m : gmap K V) (k : K) :
  k ∈ (range m).*1 ↔ k ∈ dom m.
Proof.
  rewrite range_keys_perm, elem_of_dom. split.
  - intros [[k' v] [-> Hkv]]%list_elem_of_fmap.
    apply elem_of_map_to_list in Hkv. by exists v.
  - intros [v Hv]. apply list_elem_of_fmap. exists (k, v).
    split; [done|]. by apply elem_of_map_to_list.
Qed.

Lemma range_empty {K} `{Countable K} {V} : range (∅ : gmap K V) = [].
Proof.
  apply Permutation_nil_r. rewrite range_perm. by rewrite map_to_list_empty.
Qed.

Lemma range_nonempty {K} `{Countable K} {V} (m : gmap K V) :
  m ≠ ∅ → range m ≠ [].
Proof.
  intros Hm Hr. apply Hm, map_to_list_empty_iff.
  apply Permutation_nil_r. by rewrite <- range_perm, Hr.
Qed.

(** ** What the handlers write *)

Lemma writesTo_same (c : Conn) (message : string) (l : list Conn) :
  NoDup l →
  writesTo c ((λ c', (c', message)) <$> l) =
  if decide (c ∈ l) then [message] else [].
Proof.
  unfold writesTo. induction 1 as [|c' l Hc' Hl IH]; [done|].
  rewrite fmap_cons, filter_cons. simpl. destruct (decide (c' = c)) as [->|Hne].
  - rewrite fmap_cons, IH. simpl.
    rewrite decide_False by done. rewrite decide_True by apply list_elem_of_here.
    done.
  - rewrite IH. destruct (decide (c ∈ l)) as [Hin|Hnin].
    + rewrite decide_True; [done|]. by apply list_elem_of_further.
    + rewrite decide_False; [done|].
      intros [->|?]%elem_of_cons; done.
Qed.

Lemma setWire_setWire (w w' : list (Conn * string)) (st : State) :
  setWire w (setWire w' st) = setWire w st.
Proof. done. Qed.

Lemma setWire_id (st : State) : setWire (wire st) st = st.
Proof. by destruct st. Qed.

Lemma connWrite_snd (conn : Conn) (b : string) (st : State) :
  (connWrite conn b st).2 = setWire (wire st ++ [(conn, b)]) st.
Proof. done. Qed.

Lemma broadcastMessage_eq (message : string) (sender : Conn) (st : State) :
  broadcastMessage message sender st =
  setWire (wire st ++ ((λ c, (c, message)) <$> recipients sender st)) st.
Proof.
  unfold broadcastMessage, recipients.
  generalize (range (clients st)).*1 as l. intros l.
  rewrite <- (setWire_id st) at 1. generalize (wire st) as w.
  induction l as [|c l IH]; intros w.
  - simpl. by rewrite app_nil_r.
  - rewrite filter_cons. cbn [foldl].
    destruct (decide (c ≠ sender)) as [Hc|Hc]; [|apply IH].
    rewrite connWrite_snd, setWire_setWire. cbn [wire setWire].
    by rewrite IH, fmap_cons, <- app_assoc.
Qed.

Lemma recipients_NoDup (sender : Conn) (st : State) :
  NoDup (recipients sender st).
Proof. apply NoDup_filter, range_keys_NoDup. Qed.

Lemma elem_of_recipients (c sender : Conn) (st : State) :
  c ∈ recipients sender st ↔ c ∈ dom (clients st) ∧ c ≠ sender.
Proof.
  unfold recipients. rewrite list_elem_of_filter, elem_of_range_keys. tauto.
Qed.

(** A broadcast writes the message once to every registered connection but
    the sender, and to nobody else. *)
Lemma broadcastMessage_writes (message : string) (sender : Conn) (st : State) :
  ∃ sent, wire (broadcastMessage message sender st) = wire st ++ sent ∧
    ∀ c, writesTo c sent =
         if decide (c ∈ dom (clients st) ∧ c ≠ sender) then [message] else [].
Proof.
  exists ((λ c, (c, message)) <$> recipients sender st).
  split; [by rewrite broadcastMessage_eq|].
  intros c'. rewrite writesTo_same by apply recipients_NoDup.
  destruct (decide (c' ∈ recipients sender st)) as [Hin|Hnin].
  - rewrite decide_True; [done|]. by apply elem_of_recipients.
  - rewrite decide_False; [done|]. by rewrite <- elem_of_recipients.
Qed.


(** ** Frame properties of the handlers *)

Lemma broadcastMessage_clients (message : string) (sender : Conn) (st : State) :
  clients (broadcastMessage message sender st) = clients st.
Proof. by rewrite broadcastMessage_eq. Qed.

Lemma broadcastMessage_history (message : string) (sender : Conn) (st : State) :
  history (broadcastMessage message sender st) = history st.
Proof. by rewrite broadcastMessage_eq. Qed.

Lemma sendLines_frame (conn : Conn) (tokens : list string) (st : State) :
  let st' := (sendLines conn tokens st).2 in
  clients st' = clients st ∧ addr st' = addr st ∧ tasks st' = tasks st
  ∧ taskIDCounter st' = taskIDCounter st ∧ history st' = history st
  ∧ closed st' = closed st.
Proof.
  revert st. induction tokens as [|text rest IH]; intros st; [done|].
  cbn [sendLines]. unfold connWrite.
  destruct (decide (conn ∈ closed st)); [done|].
  apply (IH (setWire (wire st ++ [(conn, text +:+ LF)]) st)).
Qed.

Lemma sendHistory_frame (conn : Conn) (st : State) :
  let st' := sendHistory conn st in
  clients st' = clients st ∧ addr st' = addr st ∧ tasks st' = tasks st
  ∧ taskIDCounter st' = taskIDCounter st ∧ history st' = history st
  ∧ closed st' = closed st.
Proof.
  unfold sendHistory. destruct (openReadErr st); [done|].
  destruct (Scan (history st)) as [tokens scanErr].
  pose proof (sendLines_frame conn tokens st) as Hframe.
  destruct (sendLines conn tokens st) as [[] st1]; [|done].
  by destruct scanErr.
Qed.

Lemma changeNickname_history (conn : Conn) (nickname newNickname : string)
    (st : State) :
  history (changeNickname conn nickname newNickname st).2 = history st.
Proof. unfold changeNickname. cbn [snd]. by rewrite broadcastMessage_history. Qed.

Lemma listTasks_eq (conn : Conn) (st : State) :
  listTasks conn st =
  setWire (wire st ++
    [(conn, if decide (range (tasks st) = [])
            then "No tasks found." +:+ LF
            else Join (taskLine <$> (range (tasks st)).*2) "; " +:+ LF)]) st.
Proof.
  unfold listTasks. destruct (range (tasks st)) as [|kv l]; [done|].
  rewrite decide_False by done. rewrite decide_False by done. done.
Qed.

Lemma deleteTask_history (conn : Conn) (taskID : string) (st : State) :
  history (deleteTask conn taskID st) = history st.
Proof. unfold deleteTask. by destruct (tasks st !! taskID). Qed.

(** ** The dispatch of [handleCommands], prefix by prefix *)

Ltac exclude Hp q :=
  match type of Hp with
  | HasPrefix ?m ?p = true =>
      rewrite (commandPrefixes_exclusive m p q
                 ltac:(by repeat constructor) ltac:(by repeat constructor)
                 ltac:(done) Hp)
  end.

Ltac dispatch Hp :=
  unfold handleCommands;
  repeat first
    [ rewrite Hp | exclude Hp "/quit" | exclude Hp "/history"
    | exclude Hp "/nickname" | exclude Hp "/users" | exclude Hp "/task add"
    | exclude Hp "/task list" | exclude Hp "/task delete" ].

Lemma handleCommands_quit conn nickname message now st :
  HasPrefix message "/quit" = true →
  handleCommands conn nickname message now st =
  (nickname, connClose conn (connWrite conn ("Goodbye!" +:+ LF) st).2).
Proof. intros Hp. by dispatch Hp. Qed.

Lemma handleCommands_history conn nickname message now st :
  HasPrefix message "/history" = true →
  handleCommands conn nickname message now st = (nickname, sendHistory conn st).
Proof. intros Hp. by dispatch Hp. Qed.

Lemma handleCommands_nickname conn nickname message now st :
  HasPrefix message "/nickname" = true →
  handleCommands conn nickname message now st =
  match SplitN message " " 2 with
  | [_; arg] => changeNickname conn nickname arg st
  | _ => (nickname, st)
  end.
Proof. intros Hp. by dispatch Hp. Qed.

Lemma handleCommands_users conn nickname message now st :
  HasPrefix message "/users" = true →
  handleCommands conn nickname message now st = (nickname, sendUsersList conn st).
Proof. intros Hp. by dispatch Hp. Qed.

Lemma handleCommands_task_add conn nickname message now st :
  HasPrefix message "/task add" = true →
  handleCommands conn nickname message now st =
  match SplitN message " " 3 with
  | [_; _; description] => (nickname, addTask conn nickname description st)
  | _ => (nickname, st)
  end.
Proof. intros Hp. by dispatch Hp. Qed.

Lemma handleCommands_task_list conn nickname message now st :
  HasPrefix message "/task list" = true →
  handleCommands conn nickname message now st = (nickname, listTasks conn st).
Proof. intros Hp. by dispatch Hp. Qed.

Lemma handleCommands_task_delete conn nickname message now st :
  HasPrefix message "/task delete" = true →
  handleCommands conn nickname message now st =
  match SplitN message " " 3 with
  | [_; _; taskID] => (nickname, deleteTask conn taskID st)
  | _ => (nickname, st)
  end.
Proof. intros Hp. by dispatch Hp. Qed.

Lemma handleCommands_chat conn nickname message now st :
  recognized message = false →
  handleCommands conn nickname message now st =
  (nickname,
   broadcastMessage (nickname +:+ ": " +:+ message +:+ LF) conn
     (logMessage nickname message now st)).
Proof.
  intros Hchat%recognized_false. unfold handleCommands.
  by repeat (apply Forall_cons in Hchat as [-> Hchat]).
Qed.

Lemma recognized_true (message : string) :
  recognized message = true →
  ∃ p, p ∈ commandPrefixes ∧ HasPrefix message p = true.
Proof.
  unfold recognized. intros (p & Hp & Hm)%existsb_exists.
  exists p. by rewrite list_elem_of_In.
Qed.

(** ** C1: a chat message goes to everybody else *)

(** C1.  A line whose trimmed form starts with no command prefix, read from
    session [A], makes the server write the formatted message once to every
    connection of the registry other than [A]; nothing is written to [A]
    or to a connection outside the registry. *)
Theorem C1_broadcast_exclusion (A : Conn) (nickname netData : string)
    (now : Time) (st : State) :
  recognized (TrimSpace netData) = false →
  ∃ sent,
    wire (handleConnection_line A nickname now netData st).2 = wire st ++ sent
    ∧ ∀ c, writesTo c sent =
           if decide (c ∈ dom (clients st) ∧ c ≠ A)
           then [nickname +:+ ": " +:+ TrimSpace netData +:+ LF]
           else [].
Proof.
  intros Hchat. unfold handleConnection_line.
  rewrite handleCommands_chat by done. cbn [snd].
  destruct (broadcastMessage_writes
              (nickname +:+ ": " +:+ TrimSpace netData +:+ LF) A
              (logMessage nickname (TrimSpace netData) now st))
    as (sent & Hwire & Hsent).
  exists sent. split.
  - rewrite Hwire. unfold logMessage, WriteString. by destruct (appendErr st).
  - intros c. rewrite Hsent. unfold logMessage, WriteString.
    by destruct (appendErr st).
Qed.

(** ** C10: a nickname change touches one entry *)

(** C10.  When session [A] is registered, [changeNickname] changes the
    entry of [A] in [clients] and nothing else of the registry: the set of
    registered connections, the nickname of every other connection and all
    remote addresses stay as they were. *)
Theorem C10_nickname_change_frame (A : Conn) (nickname newNickname : string)
    (st : State) :
  A ∈ dom (clients st) →
  let st' := (changeNickname A nickname newNickname st).2 in
  dom (clients st') = dom (clients st)
  ∧ clients st' !! A = Some newNickname
  ∧ (∀ c, c ≠ A → clients st' !! c = clients st !! c)
  ∧ addr st' = addr st.
Proof.
  intros HA. unfold changeNickname. cbn [snd].
  rewrite broadcastMessage_eq. cbn.
  split; [|split; [|split]].
  - rewrite dom_insert_L. apply subseteq_union_1_L.
    by apply singleton_subseteq_l.
  - apply lookup_insert_eq.
  - intros c Hc. by apply lookup_insert_ne.
  - done.
Qed.

(** ** C7: commands short of an argument *)

Lemma match_parts2 {A} (parts : list string) (f : string → A) (a : A) :
  length parts ≠ 2%nat →
  match parts with [_; arg] => f arg | _ => a end = a.
Proof. by destruct parts as [|? [|? [|? ?]]]. Qed.

Lemma match_parts3 {A} (parts : list string) (f : string → A) (a : A) :
  length parts ≠ 3%nat →
  match parts with [_; _; arg] => f arg | _ => a end = a.
Proof. by destruct parts as [|? [|? [|? [|? ?]]]]. Qed.

(** C7.  A line that starts with [/nickname] and holds no space, or starts
    with [/task add] or [/task delete] and holds a single space, has no
    argument to act on: the dispatcher changes nothing of the state (no
    reply is written, registry, ledger, history and console stay as they
    were) and leaves the nickname as it was. *)
Theorem C7_malformed_ignored (conn : Conn) (nickname message : string)
    (now : Time) (st : State) :
  HasPrefix message "/nickname" = true ∧ CountByte message " " = 0%nat
  ∨ HasPrefix message "/task add" = true ∧ (CountByte message " " < 2)%nat
  ∨ HasPrefix message "/task delete" = true ∧ (CountByte message " " < 2)%nat →
  handleCommands conn nickname message now st = (nickname, st).
Proof.
  intros [[Hp Hn]|[[Hp Hn]|[Hp Hn]]].
  - rewrite handleCommands_nickname by done. apply match_parts2.
    unfold SplitN. rewrite splitLoop_length, Hn. done.
  - rewrite handleCommands_task_add by done.
    apply (match_parts3 _ (λ d, (nickname, addTask conn nickname d st))).
    unfold SplitN. rewrite splitLoop_length. lia.
  - rewrite handleCommands_task_delete by done.
    apply (match_parts3 _ (λ d, (nickname, deleteTask conn d st))).
    unfold SplitN. rewrite splitLoop_length. lia.
Qed.

(** ** C8: dispatch by prefix *)

(** C8.  The dispatcher looks at the first bytes of the trimmed line, as
    they are: a line made of a command prefix and any text [rest] runs that
    command, whatever [rest] is, and appends nothing to the history; only a
    line that starts with none of the prefixes is logged and broadcast as a
    chat message. *)
Theorem C8_prefix_dispatch (conn : Conn) (nickname netData : string)
    (now : Time) (st : State) :
  let message := TrimSpace netData in
  let result := handleConnection_line conn nickname now netData st in
  (∀ rest, message = "/quit" +:+ rest →
     result = (nickname, connClose conn (connWrite conn ("Goodbye!" +:+ LF) st).2))
  ∧ (∀ rest, message = "/history" +:+ rest →
     result = (nickname, sendHistory conn st))
  ∧ (∀ rest, message = "/nickname" +:+ rest →
     result = match SplitN message " " 2 with
              | [_; arg] => changeNickname conn nickname arg st
              | _ => (nickname, st)
              end)
  ∧ (∀ rest, message = "/users" +:+ rest →
     result = (nickname, sendUsersList conn st))
  ∧ (∀ rest, message = "/task add" +:+ rest →
     result = match SplitN message " " 3 with
              | [_; _; description] =>
                  (nickname, addTask conn nickname description st)
              | _ => (nickname, st)
              end)
  ∧ (∀ rest, message = "/task list" +:+ rest →
     result = (nickname, listTasks conn st))
  ∧ (∀ rest, message = "/task delete" +:+ rest →
     result = match SplitN message " " 3 with
              | [_; _; taskID] => (nickname, deleteTask conn taskID st)
              | _ => (nickname, st)
              end)
  ∧ (recognized message = true → history result.2 = history st)
  ∧ (recognized message = false →
     result = (nickname,
               broadcastMessage (nickname +:+ ": " +:+ message +:+ LF) conn
                 (logMessage nickname message now st))).
Proof.
  intros message result. unfold result, handleConnection_line. fold message.
  assert (∀ p rest, message = p +:+ rest → HasPrefix message p = true) as Hpre.
  { intros p rest Hm. apply HasPrefix_app. by exists rest. }
  repeat split.
  - intros rest Hm. eapply handleCommands_quit, Hpre, Hm.
  - intros rest Hm. eapply handleCommands_history, Hpre, Hm.
  - intros rest Hm. eapply handleCommands_nickname, Hpre, Hm.
  - intros rest Hm. eapply handleCommands_users, Hpre, Hm.
  - intros rest Hm. eapply handleCommands_task_add, Hpre, Hm.
  - intros rest Hm. eapply handleCommands_task_list, Hpre, Hm.
  - intros rest Hm. eapply handleCommands_task_delete, Hpre, Hm.
  - intros (p & Hp & Hm)%recognized_true. unfold commandPrefixes in Hp.
    repeat (apply elem_of_cons in Hp as [->|Hp]); [..|by apply elem_of_nil in Hp].
    + by rewrite handleCommands_quit.
    + rewrite handleCommands_history by done. apply sendHistory_frame.
    + rewrite handleCommands_nickname by done.
      destruct (SplitN message " " 2) as [|? [|? [|? ?]]]; try done.
      apply changeNickname_history.
    + by rewrite handleCommands_users.
    + rewrite handleCommands_task_add by done.
      by destruct (SplitN message " " 3) as [|? [|? [|? [|? ?]]]].
    + rewrite handleCommands_task_list, listTasks_eq by done. done.
    + rewrite handleCommands_task_delete by done.
      destruct (SplitN message " " 3) as [|? [|? [|? [|? ?]]]]; try done.
      apply deleteTask_history.
  - apply handleCommands_chat.
Qed.

(** ** C9: the reply to [/task list] *)

(** C9.  [listTasks] writes one message to the requester and changes
    nothing else: ["No tasks found."] and a newline when the ledger is
    empty; otherwise the summaries
    ["ID: <id>, Owner: <owner>, Description: <description>"] of the tasks of
    the ledger, each task once, joined by ["; "] and ended by a newline. *)
Theorem C9_task_list_reply (conn : Conn) (st : State) :
  ∃ reply,
    listTasks conn st = setWire (wire st ++ [(conn, reply)]) st
    ∧ (tasks st = ∅ → reply = "No tasks found." +:+ LF)
    ∧ (tasks st ≠ ∅ →
       ∃ ts, ts ≡ₚ (map_to_list (tasks st)).*2
             ∧ reply =
               Join ((λ task, "ID: " +:+ ID task +:+ ", Owner: " +:+ Owner task
                              +:+ ", Description: " +:+ Description task)
                     <$> ts) "; " +:+ LF).
Proof.
  eexists. split; [apply listTasks_eq|]. split.
  - intros ->. by rewrite range_empty.
  - intros Hne. rewrite decide_False by by apply range_nonempty.
    exists (range (tasks st)).*2. split; [by rewrite range_perm|done].
Qed.

(** ** C6: no empty nickname in the registry *)

Lemma handleCommands_clients conn nickname message now st :
  (handleCommands conn nickname message now st).1 = nickname
  ∧ clients (handleCommands conn nickname message now st).2 = clients st
  ∨ ∃ before arg,
      SplitN message " " 2 = [before; arg]
      ∧ (handleCommands conn nickname message now st).1 = arg
      ∧ clients (handleCommands conn nickname message now st).2
        = <[conn := arg]> (clients st).
Proof.
  destruct (recognized message) eqn:Hr.
  - apply recognized_true in Hr as (p & Hp & Hm). unfold commandPrefixes in Hp.
    repeat (apply elem_of_cons in Hp as [->|Hp]); [..|by apply elem_of_nil in Hp].
    + left. by rewrite handleCommands_quit.
    + left. rewrite handleCommands_history by done.
      split; [done|apply sendHistory_frame].
    + rewrite handleCommands_nickname by done.
      destruct (SplitN message " " 2) as [|before [|arg [|? ?]]]; auto.
      right. exists before, arg. split; [done|].
      unfold changeNickname. cbn [fst snd].
      by rewrite broadcastMessage_clients.
    + left. by rewrite handleCommands_users.
    + left. rewrite handleCommands_task_add by done.
      by destruct (SplitN message " " 3) as [|? [|? [|? [|? ?]]]].
    + left. by rewrite handleCommands_task_list, listTasks_eq.
    + left. rewrite handleCommands_task_delete by done.
      destruct (SplitN message " " 3) as [|? [|? [|? [|? ?]]]]; try done.
      unfold deleteTask. cbn [fst snd]. by destruct (tasks st !! _).
  - left. rewrite handleCommands_chat by done. cbn [fst snd].
    rewrite broadcastMessage_clients. unfold logMessage, WriteString.
    by destruct (appendErr st).
Qed.

Lemma handleConnection_start_clients conn remote st :
  clients (handleConnection_start conn remote st).2 =
  match openAppendErr st with
  | Some _ => delete conn (clients st)
  | None => <[conn := "Anonymous"]> (clients st)
  end.
Proof.
  unfold handleConnection_start.
  change (openAppendErr (register conn remote st)) with (openAppendErr st).
  destruct (openAppendErr st); [|done].
  apply (delete_insert_eq (clients st)).
Qed.

Lemma handleConnection_exit_clients conn nickname st :
  clients (handleConnection_exit conn nickname st) = delete conn (clients st).
Proof.
  unfold handleConnection_exit, deregister.
  change (clients (connClose conn ?x)) with (clients x).
  change (clients (setAddr ?f ?x)) with (clients x).
  change (clients (setClients ?f ?x)) with (f (clients x)).
  by rewrite broadcastMessage_clients.
Qed.

Lemma step_names (w : World) (e : Event) :
  nonemptyNames (server w) → nonemptyNames (server (step w e)).
Proof.
  intros Hw. destruct e as [conn remote|conn now netData|conn|conn|? ? ?];
    cbn [step]; try done; unfold nonemptyNames.
  - destruct (decide _); [done|].
    pose proof (handleConnection_start_clients conn remote (server w)) as Hc.
    assert (nonemptyNames (handleConnection_start conn remote (server w)).2)
      as Hst.
    { intros c name. rewrite Hc. destruct (openAppendErr (server w)).
      - rewrite lookup_delete_Some. intros [_ Hn]. by eapply Hw.
      - rewrite lookup_insert_Some. intros [[_ <-]|[_ Hn]]; [done|].
        by eapply Hw. }
    by destruct (handleConnection_start conn remote (server w)) as [[] st'].
  - destruct (handlers w !! conn) as [nickname|]; [|done].
    destruct (decide _); [done|]. unfold handleConnection_line.
    destruct (handleCommands_clients conn nickname (TrimSpace netData) now
                (server w)) as [[_ Hc]|(before & arg & Hsplit & _ & Hc)];
    destruct (handleCommands conn nickname (TrimSpace netData) now (server w))
      as [nickname' st'] eqn:Hh; cbn [server snd] in *; rewrite Hc.
    + apply Hw.
    + intros c name [[_ <-]|[_ Hc']]%lookup_insert_Some; [|by eapply Hw].
      by eapply SplitN_2_trimmed.
  - destruct (handlers w !! conn) as [nickname|]; [|done].
    cbn [server]. rewrite handleConnection_exit_clients.
    intros c name. rewrite lookup_delete_Some. intros [_ Hn]. by eapply Hw.
Qed.

Lemma run_names (w : World) (events : list Event) :
  nonemptyNames (server w) → nonemptyNames (server (run w events)).
Proof.
  revert w. induction events as [|e events IH]; intros w Hw; [done|].
  apply IH, step_names, Hw.
Qed.

Lemma step_coherent (w : World) (e : Event) : coherent w → coherent (step w e).
Proof.
  intros Hw. destruct e as [conn remote|conn now netData|conn|conn|? ? ?];
    cbn [step]; try done; unfold coherent.
  - destruct (decide _) as [|Hnew]; [done|].
    pose proof (handleConnection_start_clients conn remote (server w)) as Hc.
    unfold handleConnection_start in *.
    change (openAppendErr (register conn remote (server w)))
      with (openAppendErr (server w)) in *.
    destruct (openAppendErr (server w)); cbn [server handlers snd] in *;
      rewrite Hc; intros c name.
    + intros Hh. rewrite lookup_delete_ne; [by apply Hw|].
      intros <-. apply Hnew. left. apply elem_of_dom. by exists name.
    + rewrite !lookup_insert_Some. intros [[<- <-]|[Hne Hh]]; [by left|].
      right. split; [done|]. by apply Hw.
  - destruct (handlers w !! conn) as [nickname|] eqn:Hconn; [|done].
    destruct (decide _); [done|]. unfold handleConnection_line.
    destruct (handleCommands_clients conn nickname (TrimSpace netData) now
                (server w)) as [[Hn Hc]|(before & arg & _ & Hn & Hc)];
    destruct (handleCommands conn nickname (TrimSpace netData) now (server w))
      as [nickname' st'] eqn:Hh; cbn [server handlers fst snd] in *;
      rewrite Hc; subst nickname'; intros c name.
    + rewrite lookup_insert_Some. intros [[<- <-]|[_ Hh']]; by apply Hw.
    + rewrite !lookup_insert_Some. intros [[<- <-]|[Hne Hh']]; [by left|].
      right. split; [done|]. by apply Hw.
  - destruct (handlers w !! conn) as [nickname|]; [|done].
    cbn [server handlers]. rewrite handleConnection_exit_clients.
    intros c name. rewrite !lookup_delete_Some. intros [Hne Hh].
    split; [done|]. by apply Hw.
Qed.

(** X12.  However the handlers interleave, the [nickname] variable of every
    running handler is the nickname the registry holds for its connection:
    chat messages, notices and new tasks are signed with the name that
    [/users] shows. *)
Lemma run_coherent (h : string) (events : list Event) :
  coherent (run (initWorld h) events).
Proof.
  assert (∀ w, coherent w → coherent (run w events)) as Hrun.
  { induction events as [|e events IH]; intros w Hw; [done|].
    apply IH, step_coherent, Hw. }
  apply Hrun. intros conn name Hh. cbn [initWorld handlers] in Hh.
  by rewrite lookup_empty in Hh.
Qed.

(** C6.  Whatever the handlers read, in whatever order they run, no
    connection of the registry has the empty nickname: a connection is
    registered as ["Anonymous"], and the argument the dispatcher takes from
    a trimmed [/nickname] line is never empty.  [changeNickname] itself
    does not check its argument: called with the empty string, it stores
    it. *)
Theorem C6_nickname_never_empty :
  (∀ (h : string) (events : list Event) (conn : Conn) (name : string),
     clients (server (run (initWorld h) events)) !! conn = Some name →
     name ≠ "")
  ∧ (∀ (conn : Conn) (remote : string) (st : State),
       clients (register conn remote st) !! conn = Some "Anonymous")
  ∧ (∀ (conn : Conn) (nickname : string) (st : State),
       clients (changeNickname conn nickname "" st).2 !! conn = Some "").
Proof.
  split; [|split].
  - intros h events conn name. by apply (run_names (initWorld h) events).
  - intros conn remote st. apply (lookup_insert_eq (clients st)).
  - intros conn nickname st. unfold changeNickname. cbn [snd].
    rewrite broadcastMessage_clients. apply (lookup_insert_eq (clients st)).
Qed.

(** ** C3: the format of a history entry *)

(** C3.  When the write succeeds, [logMessage] appends to the history
    exactly the time stamp in the RFC1123 layout, a colon and a space, the
    nickname, [" - "], the message and a line feed, and changes nothing
    else; the appended text is one line whenever zone abbreviation, nickname
    and message hold no line feed. *)
Theorem C3_log_entry_format (nickname message : string) (now : Time)
    (st : State) :
  appendErr st = None →
  logMessage nickname message now st =
    setHistory (history st +:+ Format_RFC1123 now +:+ ": " +:+ nickname
                +:+ " - " +:+ message +:+ LF) st
  ∧ (oneLine (zoneName now) → oneLine nickname → oneLine message →
     rawLines (Format_RFC1123 now +:+ ": " +:+ nickname +:+ " - " +:+ message
               +:+ LF)
     = [entryLine nickname message now]).
Proof.
  intros Hok. split.
  - unfold logMessage, WriteString. by rewrite Hok.
  - intros Hz Hn Hm. rewrite entryLine_LF.
    by apply rawLines_line, entryLine_oneLine.
Qed.

(** ** The history read back *)








(** ** C2: failures of the history log *)

Lemma handleConnection_start_fails (conn : Conn) (remote : string) (st : State)
    (err : error) :
  openAppendErr st = Some err →
  handleConnection_start conn remote st =
  (false,
   deregister conn
     (logPrint ("Error opening history log file: " +:+ err)
        (register conn remote st))).
Proof.
  intros Herr. unfold handleConnection_start.
  change (openAppendErr (register conn remote st)) with (openAppendErr st).
  by rewrite Herr.
Qed.

(** C2.  When the history log cannot be opened for a new connection, the
    error is written to the console and the handler ends there: the
    connection is closed, the registry is as it was before the connection
    came, no handler is left to read from it and a line sent on it changes
    nothing.  When the append of a chat message fails, the error is dropped:
    history and console stay as they were, and the message is broadcast all
    the same. *)
Theorem C2_history_failures :
  (∀ (w : World) (conn : Conn) (remote : string) (err : error),
     openAppendErr (server w) = Some err →
     conn ∉ dom (handlers w) → conn ∉ dom (clients (server w)) →
     conn ∉ dom (addr (server w)) → conn ∉ closed (server w) →
     let w' := step w (Accept conn remote) in
     console (server w')
     = console (server w) ++ ["Error opening history log file: " +:+ err]
     ∧ clients (server w') = clients (server w)
     ∧ addr (server w') = addr (server w)
     ∧ closed (server w') = {[conn]} ∪ closed (server w)
     ∧ handlers w' = handlers w
     ∧ ∀ now netData, step w' (Line conn now netData) = w')
  ∧ (∀ (conn : Conn) (nickname netData : string) (now : Time) (st : State)
       (err : error),
       appendErr st = Some err →
       recognized (TrimSpace netData) = false →
       let st' := (handleConnection_line conn nickname now netData st).2 in
       history st' = history st
       ∧ console st' = console st
       ∧ clients st' = clients st
       ∧ wire st'
         = wire (broadcastMessage
                   (nickname +:+ ": " +:+ TrimSpace netData +:+ LF) conn st)).
Proof.
  split.
  - intros w conn remote err Herr Hh Hc Ha Hcl w'.
    assert (w' = mkWorld
              (deregister conn
                 (logPrint ("Error opening history log file: " +:+ err)
                    (register conn remote (server w))))
              (handlers w)) as ->.
    { unfold w'. cbn [step]. rewrite decide_False by tauto.
      by rewrite (handleConnection_start_fails _ _ _ err). }
    cbn [server handlers].
    split; [done|]. split; [|split; [|split; [done|split; [done|]]]].
    + change (delete conn (<[conn := "Anonymous"]> (clients (server w)))
              = clients (server w)).
      rewrite delete_insert_eq. apply delete_id. by apply not_elem_of_dom.
    + change (delete conn (<[conn := remote]> (addr (server w)))
              = addr (server w)).
      rewrite delete_insert_eq. apply delete_id. by apply not_elem_of_dom.
    + intros now netData. cbn [step handlers].
      apply not_elem_of_dom in Hh. by rewrite Hh.
  - intros conn nickname netData now st err Herr Hchat st'. unfold st'.
    unfold handleConnection_line. rewrite handleCommands_chat by done.
    cbn [snd]. unfold logMessage, WriteString. rewrite Herr. cbn [snd].
    by rewrite broadcastMessage_eq.
Qed.

End Properties.

(** A second connection arrives while the history log cannot be opened:
    its handler ends at once, and the line it sends afterwards reaches
    nobody.  Then the first connection posts while appends fail: the message
    is broadcast, and nothing about the failure reaches the console. *)
Lemma C2_counterexample :
  let w := run (order := keyOrder) (initWorld "")
             [Accept 1 "10.0.0.1:5000";
              Accept 3 "10.0.0.3:5000";
              Faults (Some "permission denied") None None;
              Accept 2 "10.0.0.2:5000";
              Line 2 sampleTime ("hi" +:+ LF)] in
  let w' := run (order := keyOrder) w
              [Faults None None (Some "disk full");
               Line 1 sampleTime ("hello" +:+ LF)] in
  (handlers w !! 2%nat = None
   ∧ clients (server w) !! 2%nat = None
   ∧ closed (server w) = {[2%nat]}
   ∧ wire (server w) = []
   ∧ console (server w)
     = ["Client 10.0.0.1:5000 (Anonymous) connected.";
        "Client 10.0.0.3:5000 (Anonymous) connected.";
        "Error opening history log file: permission denied"])
  ∧ (wire (server w') = [(3%nat, "Anonymous: hello" +:+ LF)]
     ∧ history (server w') = ""
     ∧ console (server w') = console (server w)).
Proof.
  intros w w'. split; [split; [|split; [|split; [|split]]]|split; [|split]];
    apply (bool_decide_eq_true_1 _); vm_compute; reflexivity.
Qed.

(** C4.  A chat line of 64 KiB is appended to the history and broadcast
    like any other, and so is the line after it; a replay then reads
    neither: the scanner gives up on the long line, and [sendHistory]
    writes the error notice alone. *)
Theorem C4_long_line_stops_replay :
  let st := server (run (order := keyOrder) (initWorld "")
                      [Accept 1 "10.0.0.1:5000"; Accept 2 "10.0.0.2:5000";
                       Line 1 sampleTime ("/nickname Alice" +:+ LF);
                       Line 1 sampleTime (longMessage +:+ LF);
                       Line 1 sampleTime ("hello" +:+ LF)]) in
  history st
  = entryLine "Alice" longMessage sampleTime +:+ LF
    +:+ entryLine "Alice" "hello" sampleTime +:+ LF
  ∧ writesTo 2 (wire st)
    = ["'Anonymous' changed nickname to 'Alice'" +:+ LF;
       "Alice: " +:+ longMessage +:+ LF;
       "Alice: hello" +:+ LF]
  ∧ wire (sendHistory 2 st)
    = wire st ++ [(2%nat, "Error occurred while reading history." +:+ LF)]
  ∧ console (sendHistory 2 st)
    = console st
      ++ ["Error reading from history file: bufio.Scanner: token too long"].
Proof.
  intros st. split; [|split; [|split]];
    apply (bool_decide_eq_true_1 _); vm_compute; reflexivity.
Qed.

(** The entry of the history has a colon after the time stamp: it is not
    the time stamp, a space and the nickname. *)
Lemma C3_counterexample :
  history (logMessage "Alice" "hello" sampleTime (initState ""))
  = "Fri, 30 Oct 2026 19:26:00 UTC: Alice - hello" +:+ LF
  ∧ history (logMessage "Alice" "hello" sampleTime (initState ""))
    ≠ Format_RFC1123 sampleTime +:+ " " +:+ "Alice" +:+ " - " +:+ "hello"
      +:+ LF.
Proof. split; [reflexivity|]. vm_compute. discriminate. Qed.

(** ** The server at work *)

(** Alice says hello: Bob receives the message, Alice receives nothing. *)
Example scenario_chat :
  let w := step (order := keyOrder) sampleWorld
             (Line 1 sampleTime ("hello" +:+ LF)) in
  drop (length (wire sampleState)) (wire (server w))
  = [(2%nat, "Alice: hello" +:+ LF)]
  ∧ history (server w) = "Fri, 30 Oct 2026 19:26:00 UTC: Alice - hello" +:+ LF.
Proof. split; vm_compute; reflexivity. Qed.

(** Alice adds a task, Bob lists the tasks, Alice deletes the task, Bob
    lists again. *)
Example scenario_tasks :
  let w := run (order := keyOrder) sampleWorld
             [Line 1 sampleTime ("/task add fix bug" +:+ LF);
              Line 2 sampleTime ("/task list" +:+ LF);
              Line 1 sampleTime ("/task delete 1" +:+ LF);
              Line 2 sampleTime ("/task list" +:+ LF)] in
  drop (length (wire sampleState)) (wire (server w))
  = [(1%nat, "Task added with ID 1" +:+ LF);
     (2%nat, "ID: 1, Owner: Alice, Description: fix bug" +:+ LF);
     (1%nat, "Task deleted successfully." +:+ LF);
     (2%nat, "No tasks found." +:+ LF)].
Proof. vm_compute. reflexivity. Qed.

(** Alice quits; her handler then fails to read, and Bob is told. *)
Example scenario_quit :
  let w := run (order := keyOrder) sampleWorld
             [Line 1 sampleTime ("/quit" +:+ LF); ReadError 1] in
  drop (length (wire sampleState)) (wire (server w))
  = [(1%nat, "Goodbye!" +:+ LF);
     (2%nat, "Alice disconnected from the chat!" +:+ LF)]
  ∧ dom (clients (server w)) = {[2%nat]}.
Proof.
  intros w. split; apply (bool_decide_eq_true_1 _); vm_compute; reflexivity.
Qed.

(** The prefixes are matched byte for byte: in capitals, [/USERS] is a
    chat message. *)
Example dispatch_is_case_sensitive :
  drop (length (wire sampleState))
    (wire (handleConnection_line (order := keyOrder) 2 "Bob" sampleTime
             ("/USERS" +:+ LF) sampleState).2)
  = [(1%nat, "Bob: /USERS" +:+ LF)].
Proof. vm_compute. reflexivity. Qed.

(** At the top of the range of [int] the counter wraps around. *)
Example taskID_at_MaxInt :
  nextTaskID (setTaskIDCounter MaxInt (initState ""))
  = "-9223372036854775808".
Proof. vm_compute. reflexivity. Qed.


(** ** The theorems at work on the sample server *)

Ltac decided := apply (bool_decide_unpack _); vm_compute; exact I.

(** C1 on the sample server: Alice says hello. *)
Lemma C1_witness :
  recognized (TrimSpace ("hello" +:+ LF)) = false
  ∧ ∃ sent,
      wire (handleConnection_line (order := keyOrder) 1 "Alice" sampleTime
              ("hello" +:+ LF) sampleState).2 = wire sampleState ++ sent
      ∧ ∀ c, writesTo c sent =
             if decide (c ∈ dom (clients sampleState) ∧ c ≠ 1%nat)
             then ["Alice" +:+ ": " +:+ TrimSpace ("hello" +:+ LF) +:+ LF]
             else [].
Proof.
  split; [reflexivity|].
  apply (C1_broadcast_exclusion (order := keyOrder)). reflexivity.
Defined.

(** C2 on the sample server, with a log that can be neither opened nor
    appended to. *)
Lemma C2_witness :
  let w := step (order := keyOrder) sampleWorld
             (Faults (Some "permission denied") None (Some "disk full")) in
  (console (server (step (order := keyOrder) w (Accept 3 "10.0.0.3:5000")))
   = console (server w)
     ++ ["Error opening history log file: " +:+ "permission denied"]
   ∧ handlers (step (order := keyOrder) w (Accept 3 "10.0.0.3:5000"))
     = handlers w)
  ∧ history (handleConnection_line (order := keyOrder) 1 "Alice" sampleTime
               ("hello" +:+ LF) (server w)).2 = history (server w).
Proof.
  intros w. destruct (C2_history_failures (order := keyOrder)) as [Hopen Happend].
  split.
  - destruct (Hopen w 3%nat "10.0.0.3:5000" "permission denied")
      as (Hconsole & _ & _ & _ & Hhandlers & _);
      [reflexivity|decided..|].
    split; [exact Hconsole|exact Hhandlers].
  - destruct (Happend 1%nat "Alice" ("hello" +:+ LF) sampleTime (server w)
                "disk full") as (Hhistory & _); [reflexivity..|].
    exact Hhistory.
Defined.

(** C3 on the sample server. *)
Lemma C3_witness :
  appendErr sampleState = None
  ∧ logMessage "Alice" "hello" sampleTime sampleState =
      setHistory (history sampleState +:+ Format_RFC1123 sampleTime +:+ ": "
                  +:+ "Alice" +:+ " - " +:+ "hello" +:+ LF) sampleState.
Proof.
  split; [reflexivity|].
  apply (C3_log_entry_format "Alice" "hello" sampleTime sampleState).
  reflexivity.
Defined.


(** C6 on the run that leads to the sample server. *)
Lemma C6_witness :
  clients sampleState !! 2%nat = Some "Bob" ∧ "Bob" ≠ "".
Proof.
  split; [reflexivity|].
  destruct (C6_nickname_never_empty (order := keyOrder)) as [Hrun _].
  apply (Hrun ""
           [Accept 1 "10.0.0.1:5000"; Accept 2 "10.0.0.2:5000";
            Line 1 sampleTime ("/nickname Alice" +:+ LF);
            Line 2 sampleTime ("/nickname Bob" +:+ LF)] 2%nat).
  reflexivity.
Defined.

(** C7 on the sample server: [/task delete] without an id. *)
Lemma C7_witness :
  handleCommands (order := keyOrder) 1 "Alice" "/task delete" sampleTime
    sampleState = ("Alice", sampleState).
Proof.
  apply (C7_malformed_ignored (order := keyOrder)).
  right. right. split; [reflexivity|]. vm_compute. lia.
Defined.

(** C8 on the sample server: [/users are great] lists the users. *)
Lemma C8_witness :
  handleConnection_line (order := keyOrder) 2 "Bob" sampleTime
    ("/users are great" +:+ LF) sampleState
  = ("Bob", sendUsersList (order := keyOrder) 2 sampleState).
Proof.
  destruct (C8_prefix_dispatch (order := keyOrder) 2 "Bob"
              ("/users are great" +:+ LF) sampleTime sampleState)
    as (_ & _ & _ & Husers & _).
  apply (Husers " are great"). reflexivity.
Defined.

(** C9 on the sample server, whose ledger is empty. *)
Lemma C9_witness :
  ∃ reply,
    listTasks (order := keyOrder) 2 sampleState
    = setWire (wire sampleState ++ [(2%nat, reply)]) sampleState
    ∧ reply = "No tasks found." +:+ LF.
Proof.
  destruct (C9_task_list_reply (order := keyOrder) 2 sampleState)
    as (reply & Hlist & Hempty & _).
  exists reply. split; [exact Hlist|]. apply Hempty. reflexivity.
Defined.

(** C10 on the sample server: Alice becomes Carol. *)
Lemma C10_witness :
  1%nat ∈ dom (clients sampleState)
  ∧ dom (clients (changeNickname (order := keyOrder) 1 "Alice" "Carol"
                    sampleState).2) = dom (clients sampleState).
Proof.
  assert (1%nat ∈ dom (clients sampleState)) as Hin by decided.
  split; [exact Hin|].
  apply (C10_nickname_change_frame (order := keyOrder) 1 "Alice" "Carol"
           sampleState Hin).
Defined.

(* ================================================================== *)
(** * Further properties of the server and of the client *)

(** ** The arguments of a command *)

Lemma Cut_space_app (word rest : string) :
  CountByte word " " = 0%nat → Cut (word +:+ " " +:+ rest) " " = Some (word, rest).
Proof.
  induction word as [|c word IH]; intros Hw.
  - change ("" +:+ " " +:+ rest) with (String " " rest).
    by rewrite Cut_space_cons.
  - change (String c word +:+ " " +:+ rest)
      with (String c (word +:+ " " +:+ rest)).
    rewrite Cut_space_cons. cbn [CountByte] in Hw.
    destruct (Ascii.eqb c " "); [done|]. by rewrite IH.
Qed.

Lemma SplitN_2_app (word rest : string) :
  CountByte word " " = 0%nat → SplitN (word +:+ " " +:+ rest) " " 2 = [word; rest].
Proof. intros Hw. unfold SplitN, splitLoop. by rewrite Cut_space_app. Qed.

Lemma SplitN_3_app (word1 word2 rest : string) :
  CountByte word1 " " = 0%nat → CountByte word2 " " = 0%nat →
  SplitN (word1 +:+ " " +:+ word2 +:+ " " +:+ rest) " " 3 = [word1; word2; rest].
Proof.
  intros H1 H2. unfold SplitN, splitLoop.
  by rewrite Cut_space_app, Cut_space_app.
Qed.

Section Coverage.
Context {order : MapRange}.

(** X1.  The argument of [/nickname], [/task add] and [/task delete] is all
    that follows the space after the command, further spaces included: the
    dispatcher hands it whole to [changeNickname], [addTask] (with the
    caller's nickname as owner) and [deleteTask]. *)
Theorem command_arguments (conn : Conn) (nickname : string) (now : Time)
    (st : State) :
  (∀ name, handleCommands conn nickname ("/nickname " +:+ name) now st
           = changeNickname conn nickname name st)
  ∧ (∀ description,
       handleCommands conn nickname ("/task add " +:+ description) now st
       = (nickname, addTask conn nickname description st))
  ∧ (∀ taskID,
       handleCommands conn nickname ("/task delete " +:+ taskID) now st
       = (nickname, deleteTask conn taskID st)).
Proof.
  split; [|split].
  - intros name. rewrite handleCommands_nickname by done.
    change ("/nickname " +:+ name) with ("/nickname" +:+ " " +:+ name).
    by rewrite SplitN_2_app.
  - intros description. rewrite handleCommands_task_add by done.
    change ("/task add " +:+ description)
      with ("/task" +:+ " " +:+ "add" +:+ " " +:+ description).
    by rewrite SplitN_3_app.
  - intros taskID. rewrite handleCommands_task_delete by done.
    change ("/task delete " +:+ taskID)
      with ("/task" +:+ " " +:+ "delete" +:+ " " +:+ taskID).
    by rewrite SplitN_3_app.
Qed.

(** ** What a line of one session does to the others *)

Lemma handleCommands_outcome conn nickname message now st :
  Outcome conn nickname message now st
    (handleCommands conn nickname message now st).
Proof.
  destruct (recognized message) eqn:Hr.
  - apply recognized_true in Hr as (p & Hp & Hm). unfold commandPrefixes in Hp.
    repeat (apply elem_of_cons in Hp as [->|Hp]); [..|by apply elem_of_nil in Hp].
    + rewrite handleCommands_quit by done. constructor.
    + rewrite handleCommands_history by done. constructor.
    + rewrite handleCommands_nickname by done.
      destruct (SplitN message " " 2) as [|before [|arg [|? ?]]] eqn:Hs;
        try constructor.
      by apply (DoNickname _ _ _ _ _ before arg).
    + rewrite handleCommands_users by done. constructor.
    + rewrite handleCommands_task_add by done.
      destruct (SplitN message " " 3) as [|? [|? [|? [|? ?]]]]; constructor.
    + rewrite handleCommands_task_list by done. constructor.
    + rewrite handleCommands_task_delete by done.
      destruct (SplitN message " " 3) as [|? [|? [|? [|? ?]]]]; constructor.
  - rewrite handleCommands_chat by done. constructor.
Qed.

Lemma Outcome_frame conn nickname message now st result :
  Outcome conn nickname message now st result →
  (∀ c, c ≠ conn → clients result.2 !! c = clients st !! c)
  ∧ dom (clients st) ⊆ dom (clients result.2)
  ∧ addr result.2 = addr st
  ∧ (closed result.2 = closed st ∨ closed result.2 = {[conn]} ∪ closed st).
Proof.
  destruct 1 as [| |before arg Hs| | |description| |taskID|]; cbn [snd].
  - repeat split; auto.
  - destruct (sendHistory_frame conn st) as (-> & -> & _ & _ & _ & ->). auto.
  - unfold changeNickname. cbn [snd]. rewrite broadcastMessage_eq.
    cbn [clients addr closed setWire logPrint setConsole connWrite snd
         setClients].
    repeat split; auto.
    + intros c Hc. by apply lookup_insert_ne.
    + rewrite dom_insert_L. apply union_subseteq_r.
  - repeat split; auto.
  - repeat split; auto.
  - repeat split; auto.
  - rewrite listTasks_eq. repeat split; auto.
  - unfold deleteTask. destruct (tasks st !! taskID); repeat split; auto.
  - rewrite broadcastMessage_eq. unfold logMessage, WriteString.
    destruct (appendErr st); repeat split; auto.
Qed.

(** X2.  Whatever line a session sends, the dispatcher leaves the other
    sessions alone: their nicknames stay, no connection leaves the
    registry, the address table stays, and no other connection is closed. *)
Theorem dispatcher_isolation (conn : Conn) (nickname message : string)
    (now : Time) (st : State) :
  let st' := (handleCommands conn nickname message now st).2 in
  (∀ c, c ≠ conn → clients st' !! c = clients st !! c)
  ∧ dom (clients st) ⊆ dom (clients st')
  ∧ addr st' = addr st
  ∧ (∀ c, c ≠ conn → c ∈ closed st' ↔ c ∈ closed st).
Proof.
  intros st'.
  destruct (Outcome_frame _ _ _ _ _ _
              (handleCommands_outcome conn nickname message now st))
    as (Hc & Hd & Ha & Hcl).
  fold st' in Hc, Hd, Ha, Hcl. repeat split; try done.
  - destruct Hcl as [->| ->]; [done|].
    rewrite elem_of_union, elem_of_singleton. intros [?|?]; [congruence|done].
  - destruct Hcl as [->| ->]; [done|].
    rewrite elem_of_union. by right.
Qed.

(** X3.  Only [/task add] and [/task delete] touch the task ledger: a line
    that starts with neither leaves the tasks and the id counter as they
    were. *)
Theorem ledger_frame (conn : Conn) (nickname message : string) (now : Time)
    (st : State) :
  HasPrefix message "/task add" = false →
  HasPrefix message "/task delete" = false →
  tasks (handleCommands conn nickname message now st).2 = tasks st
  ∧ taskIDCounter (handleCommands conn nickname message now st).2
    = taskIDCounter st.
Proof.
  intros Hadd Hdel. destruct (recognized message) eqn:Hr.
  - apply recognized_true in Hr as (p & Hp & Hm). unfold commandPrefixes in Hp.
    repeat (apply elem_of_cons in Hp as [->|Hp]); [..|by apply elem_of_nil in Hp];
      try congruence.
    + by rewrite handleCommands_quit.
    + rewrite handleCommands_history by done. cbn [snd].
      by destruct (sendHistory_frame conn st) as (_ & _ & -> & -> & _).
    + rewrite handleCommands_nickname by done.
      destruct (SplitN message " " 2) as [|? [|? [|? ?]]]; try done.
      unfold changeNickname. cbn [snd]. by rewrite broadcastMessage_eq.
    + by rewrite handleCommands_users.
    + by rewrite handleCommands_task_list, listTasks_eq.
  - rewrite handleCommands_chat by done. cbn [snd].
    rewrite broadcastMessage_eq. unfold logMessage, WriteString.
    by destruct (appendErr st).
Qed.

(** ** Notices *)

Lemma writesTo_app (c : Conn) (w1 w2 : list (Conn * string)) :
  writesTo c (w1 ++ w2) = writesTo c w1 ++ writesTo c w2.
Proof. unfold writesTo. by rewrite filter_app, fmap_app. Qed.

Lemma writesTo_one (c conn : Conn) (message : string) :
  writesTo c [(conn, message)] = if decide (conn = c) then [message] else [].
Proof.
  unfold writesTo. rewrite filter_cons, filter_nil. cbn [fst].
  by destruct (decide (conn = c)).
Qed.

(** X4.  [changeNickname] tells the requester, and nobody else, that its
    nickname changed; every other connection of the registry, and nobody
    else, gets one notice with the old and the new name; the console gets
    one line. *)
Theorem changeNickname_notices (conn : Conn) (nickname newNickname : string)
    (st : State) :
  let st' := (changeNickname conn nickname newNickname st).2 in
  (∃ sent,
     wire st' = wire st ++ sent
     ∧ writesTo conn sent = ["Nickname changed to " +:+ newNickname +:+ LF]
     ∧ ∀ c, c ≠ conn →
         writesTo c sent =
         if decide (c ∈ dom (clients st))
         then ["'" +:+ nickname +:+ "' changed nickname to '" +:+ newNickname
               +:+ "'" +:+ LF]
         else [])
  ∧ console st'
    = console st
      ++ ["Client " +:+ addrOf conn st +:+ " (" +:+ nickname
          +:+ ") changed nickname to " +:+ newNickname +:+ "."].
Proof.
  intros st'. unfold st', changeNickname. cbn [snd].
  set (notice := "'" +:+ nickname +:+ "' changed nickname to '" +:+ newNickname
                 +:+ "'" +:+ LF).
  set (st1 := logPrint _ _).
  destruct (broadcastMessage_writes notice conn st1) as (sent & Hwire & Hsent).
  split; [|by rewrite broadcastMessage_eq].
  exists ((conn, "Nickname changed to " +:+ newNickname +:+ LF) :: sent).
  split; [|split].
  - rewrite Hwire. unfold st1. cbn [wire logPrint setConsole connWrite snd
                                     setWire setClients].
    by rewrite <- app_assoc.
  - change (?x :: sent) with ([x] ++ sent).
    rewrite writesTo_app, writesTo_one, Hsent.
    rewrite decide_True by done. rewrite decide_False by tauto. done.
  - intros c Hc. change (?x :: sent) with ([x] ++ sent).
    rewrite writesTo_app, writesTo_one, Hsent.
    rewrite decide_False by done. cbn [app].
    assert (c ∈ dom (clients st1) ↔ c ∈ dom (clients st)) as Hdom.
    { unfold st1. cbn [clients logPrint setConsole connWrite snd setWire
                         setClients].
      rewrite dom_insert_L, elem_of_union, elem_of_singleton. tauto. }
    destruct (decide (c ∈ dom (clients st))) as [Hin|Hnin].
    + rewrite decide_True; [done|]. split; [by apply Hdom|done].
    + rewrite decide_False; [done|]. intros [Hin _]. by apply Hnin, Hdom.
Qed.

(** X5.  [sendUsersList] answers the requester alone, with the nicknames of
    all the connections of the registry, each once, in some order, joined
    by [", "]; right after a nickname change the list holds the new name in
    the place of the old one. *)
Theorem users_list (A B : Conn) (nickname newNickname : string) (st : State) :
  (∃ names,
     names ≡ₚ (map_to_list (clients st)).*2
     ∧ sendUsersList B st
       = setWire (wire st
                  ++ [(B, "Connected users: " +:+ Join names ", " +:+ LF)]) st)
  ∧ (let st1 := (changeNickname A nickname newNickname st).2 in
     ∃ names,
       names ≡ₚ newNickname :: (map_to_list (delete A (clients st))).*2
       ∧ sendUsersList B st1
         = setWire (wire st1
                    ++ [(B, "Connected users: " +:+ Join names ", " +:+ LF)])
             st1).
Proof.
  split.
  - exists (range (clients st)).*2. split; [by rewrite range_perm|done].
  - intros st1. exists (range (clients st1)).*2. split; [|done].
    rewrite range_perm. unfold st1, changeNickname. cbn [snd].
    rewrite broadcastMessage_clients.
    cbn [clients logPrint setConsole connWrite snd setWire setClients].
    rewrite <- insert_delete_eq.
    rewrite map_to_list_insert by apply lookup_delete_eq. done.
Qed.

(** ** The task ledger *)

(** X6.  [deleteTask] answers ["Task not found."] and changes nothing when
    the id is not in the ledger; it removes the task and answers
    ["Task deleted successfully."] when it is; a second deletion of the same
    id always finds nothing. *)
Theorem deleteTask_replies (conn conn' : Conn) (taskID : string) (st : State) :
  (tasks st !! taskID = None →
     deleteTask conn taskID st
     = setWire (wire st ++ [(conn, "Task not found." +:+ LF)]) st)
  ∧ (is_Some (tasks st !! taskID) →
     deleteTask conn taskID st
     = setWire (wire st ++ [(conn, "Task deleted successfully." +:+ LF)])
         (setTasks (delete taskID) st))
  ∧ deleteTask conn' taskID (deleteTask conn taskID st)
    = setWire (wire (deleteTask conn taskID st)
               ++ [(conn', "Task not found." +:+ LF)])
        (deleteTask conn taskID st).
Proof.
  split; [|split].
  - intros Hnone. unfold deleteTask. by rewrite Hnone.
  - intros [task Hsome]. unfold deleteTask. by rewrite Hsome.
  - assert (tasks (deleteTask conn taskID st) !! taskID = None) as Hgone.
    { unfold deleteTask. destruct (tasks st !! taskID) eqn:Ht; [|done].
      apply (lookup_delete_eq (tasks st)). }
    unfold deleteTask at 1. by rewrite Hgone.
Qed.

(** X7.  A task added under an id the ledger does not hold yet can be looked
    up under that id, with the caller as owner; deleting the id gives the
    ledger back as it was, and the two callers have been told. *)
Theorem addTask_deleteTask (conn conn' : Conn) (owner description : string)
    (st : State) :
  tasks st !! nextTaskID st = None →
  let st1 := addTask conn owner description st in
  tasks st1 !! nextTaskID st
  = Some (mkTask (nextTaskID st) description owner)
  ∧ tasks (deleteTask conn' (nextTaskID st) st1) = tasks st
  ∧ wire (deleteTask conn' (nextTaskID st) st1)
    = wire st
      ++ [(conn, "Task added with ID " +:+ nextTaskID st +:+ LF);
          (conn', "Task deleted successfully." +:+ LF)].
Proof.
  intros Hfresh st1.
  assert (tasks st1 = <[nextTaskID st := mkTask (nextTaskID st) description owner]>
                        (tasks st)) as Htasks by done.
  assert (tasks st1 !! nextTaskID st
          = Some (mkTask (nextTaskID st) description owner)) as Hlook.
  { rewrite Htasks. apply lookup_insert_eq. }
  split; [done|]. unfold deleteTask. rewrite Hlook.
  cbn [tasks wire connWrite snd setWire setTasks]. split.
  - rewrite Htasks, delete_insert_eq. by apply delete_id.
  - unfold st1, addTask. cbn [wire connWrite snd setWire setTasks
                               setTaskIDCounter].
    by rewrite <- app_assoc.
Qed.

(** X8.  On an empty ledger, [/task list] right after an [addTask] shows
    that task alone: its id, its owner and its description. *)
Theorem listTasks_after_addTask (conn conn' : Conn) (owner description : string)
    (st : State) :
  tasks st = ∅ →
  wire (listTasks conn' (addTask conn owner description st))
  = wire st
    ++ [(conn, "Task added with ID " +:+ nextTaskID st +:+ LF);
        (conn', "ID: " +:+ nextTaskID st +:+ ", Owner: " +:+ owner
                +:+ ", Description: " +:+ description +:+ LF)].
Proof.
  intros Hempty. rewrite listTasks_eq.
  assert (tasks (addTask conn owner description st)
          = {[nextTaskID st := mkTask (nextTaskID st) description owner]})
    as Htasks.
  { change (tasks (addTask conn owner description st))
      with (<[nextTaskID st := mkTask (nextTaskID st) description owner]>
              (tasks st)).
    by rewrite Hempty. }
  assert (range (tasks (addTask conn owner description st))
          = [(nextTaskID st, mkTask (nextTaskID st) description owner)])
    as Hrange.
  { apply Permutation_singleton_r.
    by rewrite range_perm, Htasks, map_to_list_singleton. }
  rewrite Hrange, decide_False by done.
  cbn [wire setWire fmap list_fmap snd Join taskLine ID Owner Description].
  unfold addTask. cbn [wire connWrite snd setWire setTasks setTaskIDCounter].
  rewrite <- app_assoc. unfold taskLine. cbn [ID Owner Description].
  by rewrite !string_app_assoc.
Qed.

(** ** Leaving *)

(** X9.  When a handler leaves its loop, every other connection of the
    registry, and nobody else, is told once that the nickname disconnected;
    the connection is taken out of the registry and of the address table
    and is closed, and the console gets one line. *)
Theorem departure_notice (conn : Conn) (nickname : string) (st : State) :
  let st' := handleConnection_exit conn nickname st in
  (∃ sent,
     wire st' = wire st ++ sent
     ∧ ∀ c, writesTo c sent =
            if decide (c ∈ dom (clients st) ∧ c ≠ conn)
            then [nickname +:+ " disconnected from the chat!" +:+ LF]
            else [])
  ∧ clients st' = delete conn (clients st)
  ∧ addr st' = delete conn (addr st)
  ∧ closed st' = {[conn]} ∪ closed st
  ∧ console st'
    = console st
      ++ ["Client " +:+ addrOf conn st +:+ " (" +:+ nickname
          +:+ ") disconnected."].
Proof.
  intros st'. unfold st', handleConnection_exit.
  set (notice := nickname +:+ " disconnected from the chat!" +:+ LF).
  set (st1 := logPrint _ st).
  destruct (broadcastMessage_writes notice conn st1) as (sent & Hwire & Hsent).
  split.
  { exists sent. split; [|exact Hsent].
    change (wire (deregister conn ?x)) with (wire x). by rewrite Hwire. }
  unfold deregister. rewrite broadcastMessage_eq. done.
Qed.

(** X10.  The deferred function of [handleConnection] takes the connection,
    and no other, out of the registry and of the address table; run a second
    time it changes nothing. *)
Theorem deregister_idempotent (conn : Conn) (st : State) :
  deregister conn (deregister conn st) = deregister conn st
  ∧ clients (deregister conn st) !! conn = None
  ∧ addr (deregister conn st) !! conn = None
  ∧ ∀ c, c ≠ conn →
      clients (deregister conn st) !! c = clients st !! c
      ∧ addr (deregister conn st) !! c = addr st !! c.
Proof.
  split; [|split; [|split]].
  - unfold deregister, connClose, setClosed, setAddr, setClients.
    cbn [clients addr tasks taskIDCounter history openAppendErr openReadErr
         appendErr closed wire console].
    rewrite !delete_delete_eq.
    by rewrite (assoc_L (∪)), (idemp_L (∪)).
  - apply (lookup_delete_eq (clients st)).
  - apply (lookup_delete_eq (addr st)).
  - intros c Hc. split.
    + by apply (lookup_delete_ne (clients st)).
    + by apply (lookup_delete_ne (addr st)).
Qed.

(** ** Invariants of the running server *)






Lemma Outcome_history conn nickname message now st result :
  Outcome conn nickname message now st result →
  ∃ suffix, history result.2 = history st +:+ suffix.
Proof.
  destruct 1 as [| |before arg Hs| | |description| |taskID|]; cbn [snd];
    try (exists ""; by rewrite string_app_nil_r).
  - exists "". rewrite string_app_nil_r. apply sendHistory_frame.
  - exists "". rewrite string_app_nil_r. apply changeNickname_history.
  - exists "". by rewrite string_app_nil_r, listTasks_eq.
  - exists "". rewrite string_app_nil_r. apply deleteTask_history.
  - rewrite broadcastMessage_history. unfold logMessage, WriteString.
    destruct (appendErr st); cbn [snd history setHistory]; eauto.
    exists "". by rewrite string_app_nil_r.
Qed.

Lemma step_history (w : World) (e : Event) :
  ∃ suffix, history (server (step w e)) = history (server w) +:+ suffix.
Proof.
  assert (∃ suffix, history (server w) = history (server w) +:+ suffix) as Hsame
    by (exists ""; by rewrite string_app_nil_r).
  destruct e as [conn remote|conn now netData|conn|conn|? ? ?];
    cbn [step]; try done.
  - destruct (decide _); [done|].
    assert (history (handleConnection_start conn remote (server w)).2
            = history (server w)) as Hh.
    { unfold handleConnection_start.
      change (openAppendErr (register conn remote (server w)))
        with (openAppendErr (server w)).
      by destruct (openAppendErr (server w)). }
    destruct (handleConnection_start conn remote (server w)) as [[] st'];
      cbn [server snd] in *; by rewrite Hh.
  - destruct (handlers w !! conn) as [nickname|]; [|done].
    destruct (decide _); [done|]. unfold handleConnection_line.
    pose proof (Outcome_history _ _ _ _ _ _
                  (handleCommands_outcome conn nickname (TrimSpace netData) now
                     (server w))) as Hout.
    by destruct (handleCommands conn nickname (TrimSpace netData) now
                   (server w)).
  - destruct (handlers w !! conn) as [nickname|]; [|done].
    cbn [server]. unfold handleConnection_exit, deregister.
    by rewrite broadcastMessage_eq.
Qed.

(** X13.  The server only ever appends to the history: whatever happens,
    the contents the log had before are still at its start. *)
Theorem history_append_only (w : World) (events : list Event) :
  ∃ suffix, history (server (run w events)) = history (server w) +:+ suffix.
Proof.
  revert w. induction events as [|e events IH]; intros w.
  - exists "". by rewrite string_app_nil_r.
  - destruct (IH (step w e)) as [suffix2 H2].
    destruct (step_history w e) as [suffix1 H1].
    exists (suffix1 +:+ suffix2).
    change (run w (e :: events)) with (run (step w e) events).
    by rewrite H2, H1, string_app_assoc.
Qed.

(** ** The ledger of the running server *)








(** ** When the history cannot be sent *)


End Coverage.

(** X16.  What a connection receives from a broadcast does not depend on
    the order in which Go ranges over the registry. *)
Theorem broadcast_any_order (order1 order2 : MapRange) (message : string)
    (sender c : Conn) (st : State) :
  writesTo c (wire (broadcastMessage (order := order1) message sender st))
  = writesTo c (wire (broadcastMessage (order := order2) message sender st)).
Proof.
  destruct (broadcastMessage_writes (order := order1) message sender st)
    as (sent1 & -> & H1).
  destruct (broadcastMessage_writes (order := order2) message sender st)
    as (sent2 & -> & H2).
  by rewrite !writesTo_app, H1, H2.
Qed.

(** ** The client *)

Lemma trimRightLoop_stopped (y : string) :
  trimRightLoop y = ""
  ∨ ∃ c1 r1, trimRightLoop y = String c1 r1 ∧ asciiSpace c1 = false
      ∧ (r1 = ""
         ∨ ∃ c2 r2, r1 = String c2 r2 ∧ space2 c2 c1 = false
             ∧ (r2 = ""
                ∨ ∃ c3 r3, r2 = String c3 r3 ∧ space3 c3 c2 c1 = false)).
Proof.
  assert (∀ n y, (String.length y ≤ n)%nat →
    trimRightLoop y = ""
    ∨ ∃ c1 r1, trimRightLoop y = String c1 r1 ∧ asciiSpace c1 = false
        ∧ (r1 = ""
           ∨ ∃ c2 r2, r1 = String c2 r2 ∧ space2 c2 c1 = false
               ∧ (r2 = ""
                  ∨ ∃ c3 r3, r2 = String c3 r3 ∧ space3 c3 c2 c1 = false)))
    as Hn.
  { clear y. induction n as [|n IH]; intros y Hlen.
    - destruct y; [by left|simpl in Hlen; lia].
    - destruct y as [|c1 r1]; [by left|]. cbn [trimRightLoop].
      destruct (asciiSpace c1) eqn:H1.
      { apply IH. simpl in Hlen. lia. }
      destruct r1 as [|c2 r2].
      { right. exists c1, "". auto. }
      destruct (space2 c2 c1) eqn:H2.
      { apply IH. simpl in Hlen. lia. }
      destruct r2 as [|c3 r3].
      { right. exists c1, (String c2 ""). repeat split; auto.
        right. exists c2, "". auto. }
      destruct (space3 c3 c2 c1) eqn:H3.
      { apply IH. simpl in Hlen. lia. }
      right. exists c1, (String c2 (String c3 r3)). repeat split; auto.
      right. exists c2, (String c3 r3). repeat split; auto.
      right. exists c3, r3. auto. }
  by apply (Hn (String.length y)).
Qed.

(** What trimming has left is not trimmed further when the reversed text
    of ["/nickname "] follows it. *)
Lemma trimRightLoop_keeps (y : string) :
  trimRightLoop y ≠ "" →
  trimRightLoop (trimRightLoop y +:+ " emankcin/")
  = trimRightLoop y +:+ " emankcin/".
Proof.
  intros Hne.
  destruct (trimRightLoop_stopped y)
    as [H0|(c1 & r1 & -> & H1 & [->|(c2 & r2 & -> & H2
                                       & [->|(c3 & r3 & -> & H3)])])];
    [done|..].
  - change (trimRightLoop (String c1 " emankcin/") = String c1 " emankcin/").
    cbn [trimRightLoop]. rewrite H1.
    change (space2 " " c1) with false. by change (space3 "e" " " c1) with false.
  - change (trimRightLoop (String c1 (String c2 " emankcin/"))
            = String c1 (String c2 " emankcin/")).
    cbn [trimRightLoop]. rewrite H1, H2.
    by change (space3 " " c2 c1) with false.
  - change (trimRightLoop (String c1 (String c2 (String c3 (r3 +:+ " emankcin/"))))
            = String c1 (String c2 (String c3 (r3 +:+ " emankcin/")))).
    cbn [trimRightLoop]. by rewrite H1, H2, H3.
Qed.

(** The line the client sends first, as the server's dispatcher sees it. *)
Lemma TrimSpace_nicknameLine (input : string) :
  TrimSpace (Client.nicknameLine input)
  = if String.eqb (TrimSpace input) "" then "/nickname"
    else "/nickname " +:+ TrimSpace input.
Proof.
  unfold Client.nicknameLine.
  assert (∀ name, TrimSpace ("/nickname " +:+ name +:+ LF)
                  = String.rev (trimRightLoop (String.rev name +:+ " emankcin/")))
    as Hshape.
  { intros name. unfold TrimSpace at 1, TrimRightSpace.
    change (TrimLeftSpace ("/nickname " +:+ name +:+ LF))
      with ("/nickname " +:+ name +:+ LF).
    rewrite <- (string_app_assoc "/nickname " name LF). unfold LF.
    rewrite rev_snoc, rev_app_distr.
    by change (String.rev "/nickname ") with " emankcin/". }
  rewrite Hshape. destruct (String.eqb_spec (TrimSpace input) "") as [->|Hne].
  - done.
  - unfold TrimSpace at 1 2, TrimRightSpace. rewrite rev_involutive.
    rewrite trimRightLoop_keeps.
    + rewrite rev_app_distr. done.
    + intros Hnil. apply Hne. unfold TrimSpace, TrimRightSpace.
      by rewrite Hnil.
Qed.

(** X18.  The client forwards what is typed, byte for byte, as long as no
    line trims to [/quit]; at the first line that does it sends [/quit] and
    a newline, says so on the terminal and leaves: nothing typed after it
    is sent. *)
Theorem writeToServer_until_quit (before : list string) :
  Forall (λ input, TrimSpace input ≠ "/quit") before →
  Client.writeToServer before = Client.mkRun before [] false
  ∧ ∀ quit after,
      TrimSpace quit = "/quit" →
      Client.writeToServer (before ++ quit :: after)
      = Client.mkRun (before ++ ["/quit" +:+ LF])
          ["Disconnecting from server..." +:+ LF] true.
Proof.
  induction 1 as [|input before Hinput Hbefore [IH1 IH2]].
  - split; [done|]. intros quit after Hquit.
    cbn [app Client.writeToServer]. by rewrite Hquit.
  - apply String.eqb_neq in Hinput. split.
    + cbn [Client.writeToServer]. by rewrite Hinput, IH1.
    + intros quit after Hquit. cbn [app Client.writeToServer].
      by rewrite Hinput, (IH2 quit after Hquit).
Qed.

Section ClientServer.
Context {order : MapRange}.

(** X19.  The answer to the client's nickname prompt reaches the registry.
    Whatever [ReadString] returned at the prompt (a line, or at the end of
    the input a text without line feed), the client writes exactly one line
    for the server's reader; when the trimmed answer is not empty, the
    handler reading that line changes the nickname to exactly the trimmed
    answer; when it is empty the line changes nothing, and the session
    keeps the nickname it was given. *)
Theorem client_nickname_arrives (conn : Conn) (nickname input : string)
    (now : Time) (st : State) :
  readLine input ∨ oneLine input →
  let name := TrimSpace input in
  readLine (Client.nicknameLine input)
  ∧ (name ≠ "" →
     handleConnection_line conn nickname now (Client.nicknameLine input) st
     = changeNickname conn nickname name st)
  ∧ (name = "" →
     handleConnection_line conn nickname now (Client.nicknameLine input) st
     = (nickname, st)).
Proof.
  intros Hinput name.
  assert (oneLine name) as Hname.
  { destruct Hinput as [Hline|Hone]; [by apply TrimSpace_oneLine|].
    destruct (TrimSpace_infix input) as (a & b & Hab). fold name in Hab.
    unfold oneLine in *. rewrite Hab, !CountByte_app in Hone. lia. }
  split.
  { exists ("/nickname " +:+ name). split.
    - unfold Client.nicknameLine. fold name. by rewrite string_app_assoc.
    - by apply oneLine_app. }
  unfold handleConnection_line. rewrite TrimSpace_nicknameLine.
  fold name. destruct (String.eqb_spec name "") as [Hnil|Hne]; split.
  - intros Hne. by destruct Hne.
  - intros _. by rewrite handleCommands_nickname.
  - intros _.
    change ("/nickname " +:+ name) with ("/nickname" +:+ " " +:+ name).
    rewrite handleCommands_nickname by apply prefix_app.
    by rewrite SplitN_2_app.
  - intros Hnil. by destruct Hne.
Qed.

(** X20.  The client leaves only on a line that trims to [/quit] itself,
    the server on any line that starts with it: a typed line such as
    [/quit now] is forwarded like any other and the client stays, while the
    server's handler, reading that line, says goodbye and closes the
    connection. *)
Theorem quit_with_text (conn : Conn) (nickname input rest : string)
    (now : Time) (st : State) :
  readLine input → TrimSpace input = "/quit" +:+ rest → rest ≠ "" →
  Client.writeToServer [input] = Client.mkRun [input] [] false
  ∧ handleConnection_line conn nickname now input st
    = (nickname, connClose conn (connWrite conn ("Goodbye!" +:+ LF) st).2).
Proof.
  intros _ Htrim Hrest. split.
  - cbn [Client.writeToServer]. rewrite Htrim.
    destruct (String.eqb_spec ("/quit" +:+ rest) "/quit") as [Heq|_]; [|done].
    destruct Hrest. apply (inj (String.append "/quit")).
    by rewrite string_app_nil_r.
  - unfold handleConnection_line. apply handleCommands_quit.
    rewrite Htrim. apply prefix_app.
Qed.

Ltac task_is_chat Hp :=
  match type of Hp with
  | HasPrefix ?m ?p = true =>
      rewrite
        (commandPrefixes_exclusive m p "/quit"
           ltac:(by repeat constructor) ltac:(by repeat constructor)
           ltac:(done) Hp),
        (commandPrefixes_exclusive m p "/history"
           ltac:(by repeat constructor) ltac:(by repeat constructor)
           ltac:(done) Hp),
        (commandPrefixes_exclusive m p "/nickname"
           ltac:(by repeat constructor) ltac:(by repeat constructor)
           ltac:(done) Hp),
        (commandPrefixes_exclusive m p "/users"
           ltac:(by repeat constructor) ltac:(by repeat constructor)
           ltac:(done) Hp)
  end.

(** X21.  The server with the task ledger treats every line that starts
    with none of the three task prefixes exactly as the earlier server
    did; a line that starts with one of them was a chat message for the
    earlier server, logged and broadcast. *)
Theorem legacy_agrees (conn : Conn) (nickname message : string) (now : Time)
    (st : State) :
  (HasPrefix message "/task add" = false →
   HasPrefix message "/task list" = false →
   HasPrefix message "/task delete" = false →
   handleCommands conn nickname message now st
   = Legacy.handleCommands conn nickname message now st)
  ∧ (HasPrefix message "/task add" = true
     ∨ HasPrefix message "/task list" = true
     ∨ HasPrefix message "/task delete" = true →
     Legacy.handleCommands conn nickname message now st
     = (nickname,
        broadcastMessage (nickname +:+ ": " +:+ message +:+ LF) conn
          (logMessage nickname message now st))).
Proof.
  split.
  - intros Hadd Hlist Hdel. unfold handleCommands, Legacy.handleCommands.
    by rewrite Hadd, Hlist, Hdel.
  - unfold Legacy.handleCommands.
    intros [Hp|[Hp|Hp]]; by task_is_chat Hp.
Qed.

End ClientServer.

(** ** The further theorems at work on the sample server *)

(** X3 on the sample server: [/users] leaves the ledger alone. *)
Lemma ledger_frame_witness :
  tasks (handleCommands (order := keyOrder) 1 "Alice" "/users" sampleTime
           sampleState).2 = tasks sampleState
  ∧ taskIDCounter (handleCommands (order := keyOrder) 1 "Alice" "/users"
                     sampleTime sampleState).2 = taskIDCounter sampleState.
Proof. apply (ledger_frame (order := keyOrder)); reflexivity. Defined.

(** X7 on the sample server: Alice adds a task and Bob deletes it. *)
Lemma addTask_deleteTask_witness :
  tasks sampleState !! nextTaskID sampleState = None
  ∧ tasks (deleteTask 2 (nextTaskID sampleState)
             (addTask 1 "Alice" "fix bug" sampleState)) = tasks sampleState.
Proof.
  assert (tasks sampleState !! nextTaskID sampleState = None) as Hfresh
    by reflexivity.
  split; [exact Hfresh|].
  exact (proj1 (proj2 (addTask_deleteTask 1 2 "Alice" "fix bug" sampleState
                         Hfresh))).
Defined.

(** X8 on the sample server, whose ledger is empty. *)
Lemma listTasks_after_addTask_witness :
  wire (listTasks (order := keyOrder) 2
          (addTask 1 "Alice" "fix bug" sampleState))
  = wire sampleState
    ++ [(1%nat, "Task added with ID " +:+ nextTaskID sampleState +:+ LF);
        (2%nat, "ID: " +:+ nextTaskID sampleState +:+ ", Owner: " +:+ "Alice"
                +:+ ", Description: " +:+ "fix bug" +:+ LF)].
Proof.
  apply (listTasks_after_addTask (order := keyOrder)). reflexivity.
Defined.


(** X18 on three typed lines, the last of them [/quit]. *)
Lemma writeToServer_until_quit_witness :
  Client.writeToServer
    (["hello" +:+ LF; "/quit now" +:+ LF] ++ (" /quit " +:+ LF) :: ["bye" +:+ LF])
  = Client.mkRun (["hello" +:+ LF; "/quit now" +:+ LF] ++ ["/quit" +:+ LF])
      ["Disconnecting from server..." +:+ LF] true.
Proof.
  apply (writeToServer_until_quit ["hello" +:+ LF; "/quit now" +:+ LF]).
  - repeat constructor; intros Heq; vm_compute in Heq; discriminate.
  - reflexivity.
Defined.

(** X20 on the sample server: Alice types [/quit now]. *)
Lemma quit_with_text_witness :
  Client.writeToServer ["/quit now" +:+ LF]
  = Client.mkRun ["/quit now" +:+ LF] [] false
  ∧ handleConnection_line (order := keyOrder) 1 "Alice" sampleTime
      ("/quit now" +:+ LF) sampleState
    = ("Alice",
       connClose 1 (connWrite 1 ("Goodbye!" +:+ LF) sampleState).2).
Proof.
  apply (quit_with_text (order := keyOrder) 1 "Alice" ("/quit now" +:+ LF)
           " now").
  - exists "/quit now". split; reflexivity.
  - reflexivity.
  - discriminate.
Defined.

(** X19 on the sample server: the answer [  Carol  ] at the prompt. *)
Lemma client_nickname_arrives_witness :
  readLine (Client.nicknameLine ("  Carol  " +:+ LF))
  ∧ handleConnection_line (order := keyOrder) 1 "Alice" sampleTime
      (Client.nicknameLine ("  Carol  " +:+ LF)) sampleState
    = changeNickname (order := keyOrder) 1 "Alice" "Carol" sampleState.
Proof.
  assert (readLine ("  Carol  " +:+ LF) ∨ oneLine ("  Carol  " +:+ LF))
    as Hinput.
  { left. exists "  Carol  ". split; reflexivity. }
  destruct (client_nickname_arrives (order := keyOrder) 1 "Alice"
              ("  Carol  " +:+ LF) sampleTime sampleState Hinput)
    as (Hline & Hchange & _).
  split; [exact Hline|]. apply Hchange. discriminate.
Defined.
